(** * todocli: the item model and the JSON storage manager

    A shallow embedding of [todocli/models.py] (Priority, Todo) and
    [todocli/storage.py] (TodoStorage), followed by the properties of the
    specification that concern them.

    Conventions of the embedding:
    - Python values that can reach a [Todo] field are JSON-like data
      ([json], what [json.load] returns) or a member of the [Priority]
      enumeration ([pyval]).  Dataclasses do not check field types, so
      every field of the record is a [pyval].  Non-integer numbers are
      left out: no operation of this layer computes with them.
    - A Python [dict] with string keys is a [gmap string _]; a [JObj]
      lists the items of such a dict (keys pairwise distinct).
    - Exceptions are values of [exn]; a computation returns [Ok] or
      [Raise].  Effects (the file system, the clock, the uuid source) are
      threaded through a [World]; the effects a computation performed
      before it raised are kept.
    - The file system maps a path to a regular file.  Directories are not
      represented, so [mkdir(parents=True, exist_ok=True)] is invisible.
    - Library functions whose result is not determined by this repository
      ([uuid4], [datetime.isoformat], [datetime.fromisoformat]) are the
      operations of the class [Runtime]; what rich accepts as markup, and
      how an f-string writes a value that is no string, are those of the
      class [Console].  The terminal itself is not represented: a command
      keeps the markup it printed as its result. *)

From stdpp Require Import gmap strings list fin_maps pretty.
From Stdlib Require Import ZArith Lia Ascii.

Set Warnings "-register-all".

(** ** Exceptions and results *)

Inductive exn :=
  | JSONDecodeError | ValueError | TypeError | AttributeError | KeyError
  | FileNotFoundError | MarkupError.

(** [issubclass e c]: [json.JSONDecodeError] derives from [ValueError];
    [rich.errors.MarkupError] from none of the others. *)
Definition issubclass (e c : exn) : bool :=
  match e, c with
  | JSONDecodeError, JSONDecodeError | JSONDecodeError, ValueError
  | ValueError, ValueError | TypeError, TypeError
  | AttributeError, AttributeError | KeyError, KeyError
  | FileNotFoundError, FileNotFoundError | MarkupError, MarkupError => true
  | _, _ => false
  end.

(** [except (c1, ..., cn)] handles [e]. *)
Definition handles (clause : list exn) (e : exn) : bool :=
  existsb (issubclass e) clause.

Inductive result (A : Type) :=
  | Ok (a : A)
  | Raise (e : exn).
Arguments Ok {A} a.
Arguments Raise {A} e.

(** ** JSON data and Python values *)

Inductive json :=
  | JNull
  | JBool (b : bool)
  | JInt (n : Z)
  | JStr (s : string)
  | JArr (items : list json)
  | JObj (members : list (string * json)).

Fixpoint assoc {A : Type} (k : string) (l : list (string * A)) : option A :=
  match l with
  | [] => None
  | (k', v) :: l' => if String.eqb k k' then Some v else assoc k l'
  end.

(** Python's [==] on JSON-like data: [True == 1], lists compare
    element by element, dicts compare as sets of items. *)
Fixpoint json_eq (a b : json) {struct a} : bool :=
  match a, b with
  | JNull, JNull => true
  | JBool x, JBool y => Bool.eqb x y
  | JBool x, JInt n | JInt n, JBool x => Z.eqb n (if x then 1 else 0)
  | JInt n, JInt m => Z.eqb n m
  | JStr s, JStr t => String.eqb s t
  | JArr xs, JArr ys =>
      (fix all2 (xs ys : list json) {struct xs} : bool :=
         match xs, ys with
         | [], [] => true
         | x :: xs', y :: ys' => json_eq x y && all2 xs' ys'
         | _, _ => false
         end) xs ys
  | JObj d, JObj e =>
      Nat.eqb (length d) (length e) &&
      forallb (fun kv => let '(k, v) := kv in
                 match assoc k e with
                 | Some w => json_eq v w
                 | None => false
                 end) d
  | _, _ => false
  end.

Module Priority.

(** [class Priority(str, Enum)] *)
Inductive t := LOW | MEDIUM | HIGH.

Definition value (p : t) : string :=
  match p with
  | LOW => "low"
  | MEDIUM => "medium"
  | HIGH => "high"
  end.

(** [Priority(s)]: the member whose value is [s], or [ValueError]. *)
Definition call (s : string) : result t :=
  if String.eqb s "low" then Ok LOW
  else if String.eqb s "medium" then Ok MEDIUM
  else if String.eqb s "high" then Ok HIGH
  else Raise ValueError.

Definition eqb (p q : t) : bool :=
  match p, q with
  | LOW, LOW | MEDIUM, MEDIUM | HIGH, HIGH => true
  | _, _ => false
  end.

End Priority.

Inductive pyval :=
  | V (j : json)
  | E (p : Priority.t).

Definition None_ : pyval := V JNull.
Definition str (s : string) : pyval := V (JStr s).

(** [isinstance(v, str)], with the text of the string.  A [Priority]
    member is a [str] (the enumeration derives from it). *)
Definition as_str (v : pyval) : option string :=
  match v with
  | V (JStr s) => Some s
  | E p => Some (Priority.value p)
  | _ => None
  end.

(** [bool(v)] *)
Definition truthy (v : pyval) : bool :=
  match v with
  | V JNull => false
  | V (JBool b) => b
  | V (JInt n) => negb (Z.eqb n 0)
  | V (JStr s) => negb (String.eqb s "")
  | V (JArr l) => negb (Nat.eqb (length l) 0)
  | V (JObj l) => negb (Nat.eqb (length l) 0)
  | E _ => true
  end.

(** [a == b] *)
Definition py_eq (a b : pyval) : bool :=
  match a, b with
  | V x, V y => json_eq x y
  | E p, E q => Priority.eqb p q
  | E p, V (JStr s) | V (JStr s), E p => String.eqb (Priority.value p) s
  | _, _ => false
  end.

(** What [json.dump] writes for a value, read back by [json.load]. *)
Definition to_json (v : pyval) : json :=
  match v with
  | V j => j
  | E p => JStr (Priority.value p)
  end.

Definition json_of_dict (d : gmap string pyval) : json :=
  JObj (map_to_list (to_json <$> d)).

Definition dict_of_members (l : list (string * json)) : gmap string pyval :=
  V <$> (list_to_map l : gmap string json).

(** [iter(v)] for a value that [json.load] returned: a list yields its
    elements, a dict its keys, a string its characters; anything else is
    not iterable. *)
Definition py_iter (v : json) : result (list json) :=
  match v with
  | JArr l => Ok l
  | JObj d => Ok ((fun kv => JStr kv.1) <$> d)
  | JStr s => Ok ((fun c => JStr (String c EmptyString)) <$> String.list_ascii_of_string s)
  | _ => Raise TypeError
  end.

(** ** The world: files, clock, entropy *)

Record datetime := { wall : Z; utcoffset : option Z }.

(** [a < b]: two naive or two aware values compare; a naive one and an
    aware one do not ([TypeError]). *)
Definition datetime_lt (a b : datetime) : result bool :=
  match utcoffset a, utcoffset b with
  | None, None => Ok (wall a <? wall b)%Z
  | Some x, Some y => Ok (wall a - x <? wall b - y)%Z
  | _, _ => Raise TypeError
  end.

Class Runtime := {
  (** the text of the [n]-th identifier that [uuid4()] draws *)
  uuid4_str : nat → string;
  (** [d.isoformat()] *)
  isoformat : datetime → string;
  (** [datetime.fromisoformat(s)]; [None] stands for [ValueError] *)
  fromisoformat : string → option datetime
}.

(** A file is its text, seen through [json.load]: text that is not JSON,
    or text that [json.load] reads as [doc]. *)
Inductive File :=
  | FText (raw : string)
  | FJson (doc : json).

(** A path is the list of its components ([PurePath.parts]). *)
Abbreviation Path := (list string).

Record World := {
  files : gmap Path File;
  clock : Z;
  rng : nat
}.

Definition set_files (f : gmap Path File → gmap Path File) (w : World) : World :=
  {| files := f (files w); clock := clock w; rng := rng w |}.

Definition M (A : Type) : Type := World → result A * World.

Definition ret {A} (a : A) : M A := fun w => (Ok a, w).
Definition raise {A} (e : exn) : M A := fun w => (Raise e, w).
Definition lift {A} (r : result A) : M A := fun w => (r, w).

Definition bind {A B} (c : M A) (k : A → M B) : M B :=
  fun w =>
    match c w with
    | (Ok a, w') => k a w'
    | (Raise e, w') => (Raise e, w')
    end.

Notation "'let*' x ':=' c 'in' k" := (bind c (fun x => k))
  (at level 10, x name, c at level 100, k at level 200).

(** [try: body / except clause: handler] *)
Definition try_except {A} (body : M A) (clause : list exn) (handler : M A) : M A :=
  fun w =>
    match body w with
    | (Ok a, w') => (Ok a, w')
    | (Raise e, w') => if handles clause e then handler w' else (Raise e, w')
    end.

(** A list comprehension whose element expression has effects. *)
Fixpoint mapM {A B} (f : A → M B) (l : list A) : M (list B) :=
  match l with
  | [] => ret []
  | x :: l' => let* y := f x in let* ys := mapM f l' in ret (y :: ys)
  end.

(** [datetime.now()]: a naive value. *)
Definition datetime_now : M datetime :=
  fun w => (Ok {| wall := clock w; utcoffset := None |}, w).

(** [str(uuid4())] *)
Definition uuid4 `{Runtime} : M pyval :=
  fun w => (Ok (str (uuid4_str (rng w))),
            {| files := files w; clock := clock w; rng := S (rng w) |}).

(** ** pathlib *)

Module pathlib.

(** [PurePath.name]: the final component, empty when there is none. *)
Definition name (p : Path) : string := default "" (last p).

(** [s.rfind(c)] *)
Fixpoint rfind (c : Ascii.ascii) (s : string) : option nat :=
  match s with
  | EmptyString => None
  | String a s' =>
      match rfind c s' with
      | Some i => Some (S i)
      | None => if Ascii.eqb a c then Some 0 else None
      end
  end.

(** [PurePath.suffix]: from the last dot of the name, unless that dot
    is the first or the last character. *)
Definition suffix (p : Path) : string :=
  let nm := name p in
  match rfind "."%char nm with
  | Some i =>
      if (0 <? i) && (i <? String.length nm - 1)
      then String.substring i (String.length nm - i) nm
      else ""
  | None => ""
  end.

(** [PurePath.with_suffix(sfx)], for a well-formed [sfx]. *)
Definition with_suffix (p : Path) (sfx : string) : result Path :=
  let nm := name p in
  if String.eqb nm "" then Raise ValueError
  else
    let old_suffix := suffix p in
    let nm' :=
      if String.eqb old_suffix "" then nm +:+ sfx
      else String.substring 0 (String.length nm - String.length old_suffix) nm +:+ sfx in
    Ok (take (length p - 1) p ++ [nm']).

(** [Path.exists()] *)
Definition exists_ (p : Path) : M bool :=
  fun w => (Ok (bool_decide (is_Some (files w !! p))), w).

(** [Path.rename(target)] on POSIX: the target is replaced silently. *)
Definition rename (p target : Path) : M unit :=
  fun w =>
    match files w !! p with
    | Some f => (Ok tt, set_files (fun fs => <[target := f]> (delete p fs)) w)
    | None => (Raise FileNotFoundError, w)
    end.

End pathlib.

(** [json.load(open(p, "r"))] *)
Definition json_load (p : Path) : M json :=
  fun w =>
    match files w !! p with
    | None => (Raise FileNotFoundError, w)
    | Some (FText _) => (Raise JSONDecodeError, w)
    | Some (FJson doc) => (Ok doc, w)
    end.

(** [json.dump(doc, open(p, "w"))] *)
Definition json_dump (doc : json) (p : Path) : M unit :=
  fun w => (Ok tt, set_files (fun fs => <[p := FJson doc]> fs) w).

(** ** models.py: Todo *)

Module Todo.

(** [@dataclass class Todo] *)
Record t := mk {
  id : pyval;
  title : pyval;
  description : pyval;
  completed : pyval;
  priority : pyval;
  category : pyval;
  due_date : pyval;
  created_at : pyval;
  completed_at : pyval
}.

Definition field_names : list string :=
  ["id"; "title"; "description"; "completed"; "priority"; "category";
   "due_date"; "created_at"; "completed_at"].

(** [to_dict]: a [Priority] member is written as its value, anything
    else in the priority field is passed through. *)
Definition to_dict (self : t) : gmap string pyval :=
  list_to_map
    [("id", id self);
     ("title", title self);
     ("description", description self);
     ("completed", completed self);
     ("priority", match priority self with
                  | E p => str (Priority.value p)
                  | v => v
                  end);
     ("category", category self);
     ("due_date", due_date self);
     ("created_at", created_at self);
     ("completed_at", completed_at self)].

Section with_runtime.
Context `{Runtime}.

(** The generated [__init__], called with the keywords [kw]: a keyword
    that is not a field is a [TypeError], raised before any default is
    computed; a field that is not given takes its default, the two
    factories being called in field order. *)
Definition init (kw : gmap string pyval) : M t :=
  if bool_decide (map_Forall (fun k _ => k ∈ field_names) kw) then
    let* id_ :=
      match kw !! "id" with
      | Some v => ret v
      | None => uuid4
      end in
    let* created_at_ :=
      match kw !! "created_at" with
      | Some v => ret v
      | None => let* now := datetime_now in ret (str (isoformat now))
      end in
    ret {| id := id_;
           title := default (str "") (kw !! "title");
           description := default (str "") (kw !! "description");
           completed := default (V (JBool false)) (kw !! "completed");
           priority := default (E Priority.MEDIUM) (kw !! "priority");
           category := default (str "") (kw !! "category");
           due_date := default None_ (kw !! "due_date");
           created_at := created_at_;
           completed_at := default None_ (kw !! "completed_at") |}
  else raise TypeError.

(** [from_dict(data)] for a dict [data]. *)
Definition from_dict (data : gmap string pyval) : M t :=
  let data_copy := data in
  let* data_copy :=
    match data_copy !! "priority" with
    | Some v =>
        match as_str v with
        | Some s =>
            let* p := lift (Priority.call s) in
            ret (<["priority" := E p]> data_copy)
        | None => ret data_copy
        end
    | None => ret data_copy
    end in
  init data_copy.

(** [from_dict(item)] for an arbitrary value that [json.load]
    returned.  A dict goes through [from_dict]; a list has [copy()]
    but is then indexed by a string or unpacked as keywords, a
    [TypeError] either way; any other value has no [copy]. *)
Definition from_dict_value (item : json) : M t :=
  match item with
  | JObj members => from_dict (dict_of_members members)
  | JArr _ => raise TypeError
  | _ => raise AttributeError
  end.

(** [datetime.fromisoformat(v)]: [TypeError] unless [v] is a [str]. *)
Definition parse_due (v : pyval) : M datetime :=
  match as_str v with
  | None => raise TypeError
  | Some s =>
      match fromisoformat s with
      | Some d => ret d
      | None => raise ValueError
      end
  end.

(** The property [is_overdue]. *)
Definition is_overdue (self : t) : M bool :=
  if truthy (completed self) || negb (truthy (due_date self)) then ret false
  else
    try_except
      (let* due := parse_due (due_date self) in
       let* now := datetime_now in
       lift (datetime_lt due now))
      [ValueError; TypeError]
      (ret false).

End with_runtime.

End Todo.

(** ** storage.py: TodoStorage *)

Module TodoStorage.

(** The object holds the path of the items file, as the constructor
    left it (the home directory expanded). *)
Record t := { data_file : Path }.

(** The loops of [update] and [delete]:
    [for i, t in enumerate(todos): if t.id == ident: ...], the index at
    which the body runs (it returns, so it runs at most once). *)
Fixpoint scan (ident : pyval) (i : nat) (todos : list Todo.t) : option nat :=
  match todos with
  | [] => None
  | t :: rest =>
      if py_eq (Todo.id t) ident then Some i else scan ident (S i) rest
  end.

(** The loop of [get]:
    [for todo in todos: if todo.id == todo_id: return todo]. *)
Fixpoint lookup_id (todo_id : pyval) (todos : list Todo.t) : option Todo.t :=
  match todos with
  | [] => None
  | todo :: rest =>
      if py_eq (Todo.id todo) todo_id then Some todo else lookup_id todo_id rest
  end.

Section with_runtime.
Context `{Runtime}.

Definition load (self : t) : M (list Todo.t) :=
  let* present := pathlib.exists_ (data_file self) in
  if negb present then ret []
  else
    try_except
      (let* data := json_load (data_file self) in
       let* items := lift (py_iter data) in
       mapM Todo.from_dict_value items)
      [JSONDecodeError; KeyError; ValueError]
      (let* backup := lift (pathlib.with_suffix (data_file self) ".json.bak") in
       let* present := pathlib.exists_ (data_file self) in
       let* _ := (if present then pathlib.rename (data_file self) backup
                  else ret tt) in
       ret []).

Definition save (self : t) (todos : list Todo.t) : M unit :=
  json_dump (JArr ((fun todo => json_of_dict (Todo.to_dict todo)) <$> todos))
            (data_file self).

Definition add (self : t) (todo : Todo.t) : M unit :=
  let* todos := load self in
  let todos := todos ++ [todo] in
  save self todos.

Definition get (self : t) (todo_id : pyval) : M (option Todo.t) :=
  let* todos := load self in
  ret (lookup_id todo_id todos).

Definition update (self : t) (todo : Todo.t) : M bool :=
  let* todos := load self in
  match scan (Todo.id todo) 0 todos with
  | Some i =>
      let todos := <[i := todo]> todos in
      let* _ := save self todos in
      ret true
  | None => ret false
  end.

Definition delete (self : t) (todo_id : pyval) : M bool :=
  let* todos := load self in
  match scan todo_id 0 todos with
  | Some i =>
      let todos := base.delete i todos in
      let* _ := save self todos in
      ret true
  | None => ret false
  end.

Definition clear_completed (self : t) : M Z :=
  let* todos := load self in
  let initial_count := length todos in
  let todos := filter (fun todo => truthy (Todo.completed todo) = false) todos in
  let* _ := save self todos in
  ret (Z.of_nat initial_count - Z.of_nat (length todos))%Z.

End with_runtime.

End TodoStorage.

(** ** models.py: Config *)

Module Config.

(** [@dataclass class Config] *)
Record t := mk {
  data_file : pyval;
  default_priority : pyval;
  show_completed : pyval;
  sort_by : pyval;
  sort_order : pyval
}.

Definition field_names : list string :=
  ["data_file"; "default_priority"; "show_completed"; "sort_by"; "sort_order"].

(** [Config()]: every field at its default. *)
Definition defaults : t :=
  {| data_file := str "~/.todocli/todos.json";
     default_priority := E Priority.MEDIUM;
     show_completed := V (JBool true);
     sort_by := str "created_at";
     sort_order := str "desc" |}.

(** [to_dict]: [self.default_priority.value] is read without a test, and
    only a member of the enumeration has the attribute [value]. *)
Definition to_dict (self : t) : result (gmap string pyval) :=
  match default_priority self with
  | E p =>
      Ok (list_to_map
            [("data_file", data_file self);
             ("default_priority", str (Priority.value p));
             ("show_completed", show_completed self);
             ("sort_by", sort_by self);
             ("sort_order", sort_order self)])
  | V _ => Raise AttributeError
  end.

(** [Priority(v)] for an arbitrary value: the member whose value equals
    [v]; a value that is no string equals none ([ValueError]). *)
Definition priority_of (v : pyval) : result Priority.t :=
  match as_str v with
  | Some s => Priority.call s
  | None => Raise ValueError
  end.

(** The generated [__init__], called with the keywords [kw]. *)
Definition init (kw : gmap string pyval) : result t :=
  if bool_decide (map_Forall (fun k _ => k ∈ field_names) kw) then
    Ok {| data_file := default (str "~/.todocli/todos.json") (kw !! "data_file");
          default_priority := default (E Priority.MEDIUM) (kw !! "default_priority");
          show_completed := default (V (JBool true)) (kw !! "show_completed");
          sort_by := default (str "created_at") (kw !! "sort_by");
          sort_order := default (str "desc") (kw !! "sort_order") |}
  else Raise TypeError.

(** [from_dict(data)] for a dict [data]: the priority is converted
    whatever its type. *)
Definition from_dict (data : gmap string pyval) : result t :=
  let data_copy := data in
  match data_copy !! "default_priority" with
  | Some v =>
      match priority_of v with
      | Ok p => init (<["default_priority" := E p]> data_copy)
      | Raise e => Raise e
      end
  | None => init data_copy
  end.

(** [from_dict(item)] for an arbitrary value that [json.load] returned
    (see [Todo.from_dict_value]). *)
Definition from_dict_value (item : json) : result t :=
  match item with
  | JObj members => from_dict (dict_of_members members)
  | JArr _ => Raise TypeError
  | _ => Raise AttributeError
  end.

End Config.

(** ** storage.py: ConfigStorage *)

(** [open(p, "w")]: the file exists and is empty from here on. *)
Definition open_w (p : Path) : M unit :=
  fun w => (Ok tt, set_files (fun fs => <[p := FText ""]> fs) w).

Module ConfigStorage.

Record t := { config_file : Path }.

Definition load (self : t) : M Config.t :=
  let* present := pathlib.exists_ (config_file self) in
  if negb present then ret Config.defaults
  else
    try_except
      (let* data := json_load (config_file self) in
       lift (Config.from_dict_value data))
      [JSONDecodeError; KeyError; ValueError]
      (ret Config.defaults).

(** The file is opened (and so emptied) before [config.to_dict()] is
    evaluated. *)
Definition save (self : t) (config : Config.t) : M unit :=
  let* _ := open_w (config_file self) in
  let* d := lift (Config.to_dict config) in
  json_dump (json_of_dict d) (config_file self).

End ConfigStorage.

(** ** cli.py: the commands that change the collection *)

(** What the commands need of rich and of string formatting, neither of
    which this repository determines. *)
Class Console := {
  (** rich can render the markup; it cannot, for instance, when a
      closing tag matches no open tag *)
  print_ok : string → bool;
  (** what an f-string writes for a value that is no plain string *)
  format_value : pyval → string
}.

Module cli.

(** [console.print(markup)]: rich raises [MarkupError] on markup it
    cannot render.  Printing is the last statement of every command, so
    the markup that was printed is kept as the command's result.  A
    failure of the output stream itself is not represented. *)
Definition console_print `{Console} (markup : string) : M string :=
  if print_ok markup then ret markup else raise MarkupError.

(** [f"{v}"]: a string is written as it is. *)
Definition fstr `{Console} (v : pyval) : string :=
  match v with
  | V (JStr s) => s
  | _ => format_value v
  end.

(** [v.startswith(prefix)]: a method of [str]. *)
Definition startswith (v : pyval) (prefix : string) : result bool :=
  match as_str v with
  | Some s => Ok (String.prefix prefix s)
  | None => Raise AttributeError
  end.

(** [[t for t in todos if t.id.startswith(todo_id)]] *)
Fixpoint matching (todo_id : string) (todos : list Todo.t) : result (list Todo.t) :=
  match todos with
  | [] => Ok []
  | t :: rest =>
      match startswith (Todo.id t) todo_id with
      | Raise e => Raise e
      | Ok b =>
          match matching todo_id rest with
          | Raise e => Raise e
          | Ok l => Ok (if b then t :: l else l)
          end
      end
  end.

(** [todo.completed = c; todo.completed_at = at] *)
Definition set_completion (todo : Todo.t) (c at_ : pyval) : Todo.t :=
  {| Todo.id := Todo.id todo; Todo.title := Todo.title todo;
     Todo.description := Todo.description todo; Todo.completed := c;
     Todo.priority := Todo.priority todo; Todo.category := Todo.category todo;
     Todo.due_date := Todo.due_date todo; Todo.created_at := Todo.created_at todo;
     Todo.completed_at := at_ |}.

Section with_runtime.
Context `{Runtime} `{Console}.

(** In each command [storage] is the object [TodoStorage()] builds, as
    the first statement of the command (its [mkdir] is not visible
    here: directories are not represented). *)

Definition add (storage : TodoStorage.t)
    (title description priority category : string) (due : option string) : M string :=
  let due_ok :=
    match due with
    | Some s =>
        if negb (String.eqb s "")
        then match fromisoformat s with Some _ => true | None => false end
        else true
    | None => true
    end in
  if negb due_ok then console_print "[red]Invalid date format. Use YYYY-MM-DD[/red]"
  else
    let* p := lift (Priority.call priority) in
    let* todo :=
      Todo.init
        (list_to_map
           [("title", str title);
            ("description", str description);
            ("priority", E p);
            ("category", str category);
            ("due_date", match due with Some s => str s | None => None_ end)]) in
    let* _ := TodoStorage.add storage todo in
    console_print ("[green]✓[/green] Added: " +:+ title).

Definition complete (storage : TodoStorage.t) (todo_id : string) : M string :=
  let* todos := TodoStorage.load storage in
  let* found := lift (matching todo_id todos) in
  match found with
  | [] => console_print ("[red]Todo not found: " +:+ todo_id +:+ "[/red]")
  | todo :: _ =>
      if 1 <? length found
      then console_print "[yellow]Multiple matches found. Be more specific.[/yellow]"
      else
        let* now := datetime_now in
        let todo := set_completion todo (V (JBool true)) (str (isoformat now)) in
        let* ok := TodoStorage.update storage todo in
        if ok then console_print ("[green]✓[/green] Completed: " +:+ fstr (Todo.title todo))
        else console_print "[red]Failed to update todo[/red]"
  end.

Definition uncomplete (storage : TodoStorage.t) (todo_id : string) : M string :=
  let* todos := TodoStorage.load storage in
  let* found := lift (matching todo_id todos) in
  match found with
  | [] => console_print ("[red]Todo not found: " +:+ todo_id +:+ "[/red]")
  | todo :: _ =>
      if 1 <? length found
      then console_print "[yellow]Multiple matches found. Be more specific.[/yellow]"
      else
        let todo := set_completion todo (V (JBool false)) None_ in
        let* ok := TodoStorage.update storage todo in
        if ok then console_print ("[green]✓[/green] Reopened: " +:+ fstr (Todo.title todo))
        else console_print "[red]Failed to update todo[/red]"
  end.

Definition delete (storage : TodoStorage.t) (todo_id : string) : M string :=
  let* todos := TodoStorage.load storage in
  let* found := lift (matching todo_id todos) in
  match found with
  | [] => console_print ("[red]Todo not found: " +:+ todo_id +:+ "[/red]")
  | todo :: _ =>
      if 1 <? length found
      then console_print "[yellow]Multiple matches found. Be more specific.[/yellow]"
      else
        let* ok := TodoStorage.delete storage (Todo.id todo) in
        if ok then console_print ("[green]✓[/green] Deleted: " +:+ fstr (Todo.title todo))
        else console_print "[red]Failed to delete todo[/red]"
  end.

Definition clear (storage : TodoStorage.t) : M string :=
  let* count := TodoStorage.clear_completed storage in
  console_print ("[green]✓[/green] Cleared " +:+ pretty count +:+ " completed todo(s)").

End with_runtime.

End cli.

(** ** The boilerplate's cli.py: demo *)

Module boilerplate.

(** The lines [demo] writes: for [i] in [range(count)], the iteration
    line when [verbose], then the fixed line.  Colours are left out. *)
Definition demo (count : Z) (verbose : bool) : list string :=
  i ← seq 0 (Z.to_nat count);
  (if verbose
   then ["Iteration " +:+ pretty (Z.of_nat i + 1)%Z +:+ "/" +:+ pretty count]
   else [])
  ++ ["Demo command executed!"].

End boilerplate.

(** ** Vocabulary of the specification *)

(** The field types the dataclass declares:
    [id: str], [completed: bool], [priority: Priority],
    [due_date: Optional[str]], ... *)
Definition is_str (v : pyval) : bool :=
  match v with V (JStr _) => true | _ => false end.
Definition is_bool (v : pyval) : bool :=
  match v with V (JBool _) => true | _ => false end.
Definition is_opt_str (v : pyval) : bool :=
  match v with V (JStr _) | V JNull => true | _ => false end.
Definition is_priority (v : pyval) : bool :=
  match v with E _ => true | _ => false end.

(** A valid record: every field holds a value of its declared type. *)
Definition valid (x : Todo.t) : bool :=
  is_str (Todo.id x) && is_str (Todo.title x) && is_str (Todo.description x)
  && is_bool (Todo.completed x) && is_priority (Todo.priority x)
  && is_str (Todo.category x) && is_opt_str (Todo.due_date x)
  && is_str (Todo.created_at x) && is_opt_str (Todo.completed_at x).

(** The closed set of priority strings. *)
Definition priority_strings : list string := ["low"; "medium"; "high"].

(** The shape of a record that [from_dict] built from JSON data: every
    field is JSON data, except that the priority is never a bare string
    (a string there has become a member of the enumeration). *)
Definition is_json (v : pyval) : bool :=
  match v with V _ => true | E _ => false end.

Definition from_json (x : Todo.t) : bool :=
  is_json (Todo.id x) && is_json (Todo.title x) && is_json (Todo.description x)
  && is_json (Todo.completed x) && negb (is_str (Todo.priority x))
  && is_json (Todo.category x) && is_json (Todo.due_date x)
  && is_json (Todo.created_at x) && is_json (Todo.completed_at x).

(** [i] is the first index of [todos] whose item has the id [ident]. *)
Definition first_match (ident : pyval) (todos : list Todo.t) (i : nat) : Prop :=
  (∃ t, todos !! i = Some t ∧ py_eq (Todo.id t) ident = true) ∧
  ∀ j t, j < i → todos !! j = Some t → py_eq (Todo.id t) ident = false.

(** No item of [todos] has the id [ident]. *)
Definition no_match (ident : pyval) (todos : list Todo.t) : Prop :=
  ∀ t, t ∈ todos → py_eq (Todo.id t) ident = false.

(** The document [save] writes for a collection. *)
Definition document (todos : list Todo.t) : File :=
  FJson (JArr ((fun todo => json_of_dict (Todo.to_dict todo)) <$> todos)).

(** The world after the document of [todos] was written to [p]. *)
Definition written (p : Path) (todos : list Todo.t) (w : World) : World :=
  set_files (fun fs => <[p := document todos]> fs) w.

(** The current moment, as [datetime.now()] reads it. *)
Definition now_of (w : World) : datetime :=
  {| wall := clock w; utcoffset := None |}.

(** The world after one identifier was drawn from the uuid source. *)
Definition drawn (w : World) : World :=
  {| files := files w; clock := clock w; rng := S (rng w) |}.

(** Every key of the mapping is the name of a field. *)
Definition known_keys (data : gmap string pyval) : Prop :=
  map_Forall (fun k _ => k ∈ Todo.field_names) data.

(** ** Concrete objects for the examples *)

Definition demo_runtime : Runtime := {|
  uuid4_str := fun n => "uuid-" +:+ String.string_of_list_ascii (replicate n "x"%char);
  isoformat := fun d => if (wall d =? 1700000000)%Z then "2023-11-14T22:13:20" else "";
  fromisoformat := fun s =>
    if String.eqb s "2000-01-01" then Some {| wall := 946684800; utcoffset := None |}
    else if String.eqb s "2000-01-01T00:00:00+00:00"
    then Some {| wall := 946684800; utcoffset := Some 0%Z |}
    else None
|}.

Definition demo_storage : TodoStorage.t :=
  {| TodoStorage.data_file := ["home"; "user"; ".todocli"; "todos.json"] |}.

Definition demo_world (fs : gmap Path File) : World :=
  {| files := fs; clock := 1700000000; rng := 0 |}.

Definition demo_todo (ident ttl : string) (done : bool) : Todo.t :=
  {| Todo.id := str ident; Todo.title := str ttl; Todo.description := str "";
     Todo.completed := V (JBool done); Todo.priority := E Priority.MEDIUM;
     Todo.category := str ""; Todo.due_date := None_;
     Todo.created_at := str "2023-11-14T22:13:20"; Todo.completed_at := None_ |}.

Definition milk : Todo.t := demo_todo "7" "Buy milk" false.
Definition eggs : Todo.t := demo_todo "7" "Buy eggs" true.
Definition bread : Todo.t := demo_todo "8" "Buy bread" true.
Definition tea : Todo.t := demo_todo "9" "Buy tea" false.

(** A world whose only file is the items file, holding [todos]. *)
Definition stored (todos : list Todo.t) : World :=
  written (TodoStorage.data_file demo_storage) todos (demo_world ∅).

(** Every key of the mapping is the name of a field of [Config]. *)
Definition known_config_keys (data : gmap string pyval) : Prop :=
  map_Forall (fun k _ => k ∈ Config.field_names) data.

(** [t], at index [i], is the one item of [todos] whose id starts with
    [pre]; every id is a string. *)
Definition only_match (pre : string) (todos : list Todo.t) (i : nat) (t : Todo.t) : Prop :=
  todos !! i = Some t ∧
  (∃ s, as_str (Todo.id t) = Some s ∧ String.prefix pre s = true) ∧
  ∀ j t', j ≠ i → todos !! j = Some t' →
          ∃ s', as_str (Todo.id t') = Some s' ∧ String.prefix pre s' = false.

(** A console for the examples: it refuses the closing tag [[/x]] and
    accepts everything else. *)
Definition demo_console : Console := {|
  print_ok := fun markup =>
    match String.index 0 "[/x]" markup with Some _ => false | None => true end;
  format_value := fun _ => "<value>"
|}.

Definition demo_config_storage : ConfigStorage.t :=
  {| ConfigStorage.config_file := ["home"; "user"; ".todocli"; "config.json"] |}.

Definition demo_config : Config.t :=
  {| Config.data_file := str "/tmp/todos.json";
     Config.default_priority := E Priority.HIGH;
     Config.show_completed := V (JBool false);
     Config.sort_by := str "priority";
     Config.sort_order := str "asc" |}.


(** * Properties *)

Section model_properties.
Context `{Runtime}.

(** ** The item model *)

Lemma priority_call_value (p : Priority.t) :
  Priority.call (Priority.value p) = Ok p.
Proof. by destruct p. Qed.

Lemma priority_call_Ok (s : string) (p : Priority.t) :
  Priority.call s = Ok p → s = Priority.value p.
Proof.
  unfold Priority.call.
  destruct (String.eqb_spec s "low") as [->|?]; [by intros [= <-]|].
  destruct (String.eqb_spec s "medium") as [->|?]; [by intros [= <-]|].
  destruct (String.eqb_spec s "high") as [->|?]; [by intros [= <-]|].
  discriminate.
Qed.

Lemma priority_call_Raise (s : string) (e : exn) :
  Priority.call s = Raise e → e = ValueError.
Proof.
  unfold Priority.call.
  destruct (String.eqb s "low"); [done|].
  destruct (String.eqb s "medium"); [done|].
  destruct (String.eqb s "high"); [done|].
  by intros [= <-].
Qed.

Lemma priority_call_outside (s : string) :
  s ∉ priority_strings → Priority.call s = Raise ValueError.
Proof.
  unfold priority_strings, Priority.call. intros Hs.
  destruct (String.eqb_spec s "low") as [->|?]; [exfalso; apply Hs; set_solver|].
  destruct (String.eqb_spec s "medium") as [->|?]; [exfalso; apply Hs; set_solver|].
  destruct (String.eqb_spec s "high") as [->|?]; [exfalso; apply Hs; set_solver|].
  done.
Qed.

Lemma priority_call_inside (s : string) :
  s ∈ priority_strings → ∃ p, Priority.call s = Ok p.
Proof.
  unfold priority_strings. rewrite !elem_of_cons, elem_of_nil.
  intros [->|[->|[->|[]]]]; eauto.
Qed.

(** The round trip needs less than validity: it is enough that the
    priority field does not hold a bare string. *)
Lemma from_dict_to_dict (x : Todo.t) (w : World) :
  is_str (Todo.priority x) = false →
  Todo.from_dict (Todo.to_dict x) w = (Ok x, w).
Proof.
  destruct x as [i ti de co pr ca du cr ca']; simpl.
  destruct pr as [[| | |s| |]|[]]; try discriminate; intros _; reflexivity.
Qed.

(** C2: for every valid record [x], [from_dict (to_dict x)] returns [x]
    itself, field for field (an absent [due_date] or [completed_at],
    that is [None], is part of that equality), and has no effect on the
    world. *)
Theorem from_dict_to_dict_valid (x : Todo.t) (w : World) :
  valid x = true →
  Todo.from_dict (Todo.to_dict x) w = (Ok x, w).
Proof.
  intros Hv. apply from_dict_to_dict.
  unfold valid in Hv. repeat (apply andb_prop in Hv as [Hv ?]).
  by destruct (Todo.priority x) as [[]|].
Qed.

(** C3: when the mapping holds, under ["priority"], a string outside
    low / medium / high, [from_dict] raises [ValueError] (the error of
    the enumeration's constructor) to its caller: no record is built,
    no default is taken and the world is untouched. *)
Theorem from_dict_invalid_priority (data : gmap string pyval) (s : string) (w : World) :
  data !! "priority" = Some (str s) →
  s ∉ priority_strings →
  Todo.from_dict data w = (Raise ValueError, w).
Proof.
  intros Hp Hs. unfold Todo.from_dict, bind, lift.
  rewrite Hp. simpl. by rewrite (priority_call_outside s Hs).
Qed.

(** ** is_overdue *)

Lemma is_overdue_run (self : Todo.t) (w : World) :
  Todo.is_overdue self w =
    (Ok (negb (truthy (Todo.completed self)) && truthy (Todo.due_date self) &&
         match as_str (Todo.due_date self) with
         | Some s =>
             match fromisoformat s with
             | Some d =>
                 match datetime_lt d (now_of w) with
                 | Ok b => b
                 | Raise _ => false
                 end
             | None => false
             end
         | None => false
         end), w).
Proof.
  unfold Todo.is_overdue.
  destruct (truthy (Todo.completed self)); [done|].
  destruct (truthy (Todo.due_date self)); [|done]. simpl.
  unfold try_except, bind, Todo.parse_due, datetime_now, lift, raise, ret.
  destruct (as_str (Todo.due_date self)) as [s|]; [|done].
  destruct (fromisoformat s) as [d|]; [|done].
  unfold datetime_lt, now_of. simpl.
  destruct (utcoffset d); done.
Qed.

(** C5, as amended: [is_overdue] always returns a boolean (it never
    raises, whatever the due date holds) and leaves the world alone; the
    boolean is true exactly when the item is not completed, its due date
    is a string that [fromisoformat] parses to a value without UTC
    offset, and the wall-clock reading of that value is strictly below
    the reading of the current moment.  A due date that is absent, does
    not parse, or parses to a value with a UTC offset is not overdue.
    The hypothesis records that [fromisoformat] rejects the empty
    string. *)
Theorem is_overdue_iff (self : Todo.t) (w : World) :
  fromisoformat "" = None →
  ∃ b, Todo.is_overdue self w = (Ok b, w) ∧
       (b = true ↔
          truthy (Todo.completed self) = false ∧
          ∃ s d, as_str (Todo.due_date self) = Some s ∧
                 fromisoformat s = Some d ∧
                 utcoffset d = None ∧
                 (wall d < clock w)%Z).
Proof.
  intros Hempty. eexists. split; [apply is_overdue_run|].
  destruct (truthy (Todo.completed self)); simpl.
  { split; [done|]. by intros [? _]. }
  destruct (as_str (Todo.due_date self)) as [s|] eqn:Hs.
  2:{ rewrite andb_false_r. split; [done|]. by intros [_ (? & ? & ? & _)]. }
  destruct (fromisoformat s) as [d|] eqn:Hd.
  2:{ rewrite andb_false_r. split; [done|].
      intros [_ (s' & d' & [= <-] & ? & _)]. congruence. }
  assert (truthy (Todo.due_date self) = true) as ->.
  { destruct (Todo.due_date self) as [[| | |s'| |]|p]; simplify_eq/=; try done.
    destruct (String.eqb_spec s "") as [->|]; [congruence|done]. }
  simpl. unfold datetime_lt, now_of. simpl.
  destruct (utcoffset d) as [off|] eqn:Hoff.
  - split; [done|]. intros [_ (s' & d' & [= <-] & Hd' & Hoff' & _)]. congruence.
  - split.
    + intros Hlt%Z.ltb_lt. split; [done|]. by exists s, d.
    + intros [_ (s' & d' & [= <-] & Hd' & _ & Hlt)].
      apply Z.ltb_lt. congruence.
Qed.

End model_properties.

Section from_dict_properties.
Context `{Runtime}.

Lemma init_known (kw : gmap string pyval) (w : World) :
  known_keys kw →
  Todo.init kw w =
    (Ok {| Todo.id := default (str (uuid4_str (rng w))) (kw !! "id");
           Todo.title := default (str "") (kw !! "title");
           Todo.description := default (str "") (kw !! "description");
           Todo.completed := default (V (JBool false)) (kw !! "completed");
           Todo.priority := default (E Priority.MEDIUM) (kw !! "priority");
           Todo.category := default (str "") (kw !! "category");
           Todo.due_date := default None_ (kw !! "due_date");
           Todo.created_at := default (str (isoformat (now_of w))) (kw !! "created_at");
           Todo.completed_at := default None_ (kw !! "completed_at") |},
     if kw !! "id" is Some _ then w else drawn w).
Proof.
  intros Hk. unfold Todo.init. rewrite bool_decide_eq_true_2 by exact Hk.
  unfold bind, ret, uuid4, datetime_now.
  destruct (kw !! "id"), (kw !! "created_at"); reflexivity.
Qed.

Lemma init_unknown (kw : gmap string pyval) (w : World) :
  ¬ known_keys kw → Todo.init kw w = (Raise TypeError, w).
Proof.
  intros Hk. unfold Todo.init. by rewrite bool_decide_eq_false_2 by exact Hk.
Qed.

Lemma known_keys_priority (data : gmap string pyval) (v : pyval) :
  known_keys (<["priority" := v]> data) ↔ known_keys (delete "priority" data).
Proof.
  unfold known_keys. rewrite <-insert_delete_eq.
  rewrite map_Forall_insert by apply lookup_delete_eq.
  split; [tauto|]. split; [|done]. unfold Todo.field_names. set_solver.
Qed.

Lemma known_keys_delete (data : gmap string pyval) (v : pyval) :
  data !! "priority" = Some v →
  known_keys data ↔ known_keys (delete "priority" data).
Proof.
  intros Hv. rewrite <-known_keys_priority with (v := v).
  by rewrite insert_id.
Qed.

(** The two ways through the priority conversion of [from_dict]. *)
Lemma from_dict_priority_str (data : gmap string pyval) (v : pyval) (s : string) (w : World) :
  data !! "priority" = Some v → as_str v = Some s →
  Todo.from_dict data w =
    match Priority.call s with
    | Ok p => Todo.init (<["priority" := E p]> data) w
    | Raise e => (Raise e, w)
    end.
Proof.
  intros Hv Hs. unfold Todo.from_dict, bind, lift, ret. rewrite Hv, Hs.
  by destruct (Priority.call s).
Qed.

Lemma from_dict_priority_other (data : gmap string pyval) (w : World) :
  (data !! "priority") ≫= as_str = None →
  Todo.from_dict data w = Todo.init data w.
Proof.
  intros Hv. unfold Todo.from_dict, bind, ret.
  destruct (data !! "priority") as [v|]; [|done].
  simpl in Hv. by rewrite Hv.
Qed.

(** C4, as amended: on a mapping whose keys are all field names and
    whose priority, when it is a string, is one of low / medium / high,
    [from_dict] builds a record; a field the mapping lacks has its
    default (a fresh uuid for [id], the current time for [created_at]),
    a field it holds has the mapping's value, a priority string having
    become the member of the enumeration.  On a mapping with a key that
    is not a field name [from_dict] raises instead ([TypeError], or
    [ValueError] when the priority string is not recognised either). *)
Theorem from_dict_defaults (data : gmap string pyval) (w : World) :
  (known_keys data →
   (∀ v s, data !! "priority" = Some v → as_str v = Some s → s ∈ priority_strings) →
   ∃ x, Todo.from_dict data w = (Ok x, if data !! "id" is Some _ then w else drawn w) ∧
     Todo.id x = default (str (uuid4_str (rng w))) (data !! "id") ∧
     Todo.title x = default (str "") (data !! "title") ∧
     Todo.description x = default (str "") (data !! "description") ∧
     Todo.completed x = default (V (JBool false)) (data !! "completed") ∧
     (data !! "priority" = None → Todo.priority x = E Priority.MEDIUM) ∧
     (∀ v, data !! "priority" = Some v → as_str v = None → Todo.priority x = v) ∧
     (∀ v s, data !! "priority" = Some v → as_str v = Some s →
             ∃ p, Priority.value p = s ∧ Todo.priority x = E p) ∧
     Todo.category x = default (str "") (data !! "category") ∧
     Todo.due_date x = default None_ (data !! "due_date") ∧
     Todo.created_at x = default (str (isoformat (now_of w))) (data !! "created_at") ∧
     Todo.completed_at x = default None_ (data !! "completed_at")) ∧
  (¬ known_keys data →
   ∃ e, Todo.from_dict data w = (Raise e, w) ∧ (e = TypeError ∨ e = ValueError)).
Proof.
  split.
  - intros Hk Hp. unfold Todo.from_dict, bind.
    destruct (data !! "priority") as [v|] eqn:Hv.
    + destruct (as_str v) as [s|] eqn:Hs.
      * destruct (priority_call_inside s (Hp v s eq_refl Hs)) as [p Hcall].
        unfold lift, ret. rewrite Hcall.
        rewrite init_known
          by (apply known_keys_priority; by apply (known_keys_delete data v)).
        rewrite (lookup_insert_eq data), !(lookup_insert_ne data) by done.
        eexists. split; [reflexivity|]. simpl.
        split_and!; try done.
        -- intros v' [= <-] Hs'. congruence.
        -- intros v' s' [= <-] Hs'. exists p. split; [|done].
           rewrite Hs in Hs'. injection Hs' as <-.
           symmetry. by apply priority_call_Ok.
      * unfold ret. rewrite init_known by done. rewrite Hv.
        eexists. split; [reflexivity|]. simpl.
        split_and!; try done.
        -- by intros v' [= <-] _.
        -- intros v' s' [= <-] Hs'. congruence.
    + unfold ret. rewrite init_known by done. rewrite Hv.
      eexists. split; [reflexivity|]. simpl. split_and!; done.
  - intros Hk.
    destruct (data !! "priority") as [v|] eqn:Hv.
    + destruct (as_str v) as [s|] eqn:Hs.
      * rewrite (from_dict_priority_str data v s w Hv Hs).
        destruct (Priority.call s) as [p|e] eqn:Hcall.
        -- exists TypeError. split; [|by left]. apply init_unknown.
           rewrite known_keys_priority, <-(known_keys_delete data v) by done. done.
        -- apply priority_call_Raise in Hcall as ->.
           exists ValueError. by split; [|right].
      * rewrite (from_dict_priority_other data w); [|rewrite Hv; exact Hs].
        exists TypeError. split; [|by left]. by apply init_unknown.
    + rewrite (from_dict_priority_other data w); [|by rewrite Hv].
      exists TypeError. split; [|by left]. by apply init_unknown.
Qed.

(** A key that is not a field is a [TypeError], unless an unrecognised
    priority string has raised [ValueError] first. *)
Lemma from_dict_unknown_key (data : gmap string pyval) (w : World) :
  ¬ known_keys data →
  (∀ v s, data !! "priority" = Some v → as_str v = Some s → s ∈ priority_strings) →
  Todo.from_dict data w = (Raise TypeError, w).
Proof.
  intros Hk Hp. destruct (data !! "priority") as [v|] eqn:Hv.
  - destruct (as_str v) as [s|] eqn:Hs.
    + rewrite (from_dict_priority_str data v s w Hv Hs).
      destruct (priority_call_inside s (Hp v s eq_refl Hs)) as [p ->].
      apply init_unknown.
      rewrite known_keys_priority, <-(known_keys_delete data v) by done. done.
    + rewrite (from_dict_priority_other data w); [|rewrite Hv; exact Hs].
      by apply init_unknown.
  - rewrite (from_dict_priority_other data w); [|by rewrite Hv].
    by apply init_unknown.
Qed.

End from_dict_properties.

(** ** The storage manager *)

Section storage_properties.
Context `{Runtime}.
Implicit Types (self : TodoStorage.t) (w : World) (todos : list Todo.t).

Local Abbreviation path self := (TodoStorage.data_file self).

(** *** The loops *)

Lemma scan_first_match ident todos i k :
  first_match ident todos i → TodoStorage.scan ident k todos = Some (k + i).
Proof.
  revert i k. induction todos as [|t todos IH]; intros i k [(x & Hx & Hid) Hlt].
  - by rewrite lookup_nil in Hx.
  - simpl. destruct i as [|i].
    + simpl in Hx. injection Hx as ->. rewrite Hid. f_equal. lia.
    + rewrite (Hlt 0 t) by (simpl; done || lia).
      rewrite (IH i (S k)); [f_equal; lia|].
      split; [by exists x|].
      intros j t' Hj Hj'. apply (Hlt (S j) t'); [lia|done].
Qed.

Lemma scan_no_match ident todos k :
  no_match ident todos → TodoStorage.scan ident k todos = None.
Proof.
  revert k. induction todos as [|t todos IH]; intros k Hno; [done|].
  simpl. rewrite (Hno t) by set_solver.
  apply IH. intros t' Ht'. apply Hno. set_solver.
Qed.

Lemma scan_Some ident todos k i :
  TodoStorage.scan ident k todos = Some i →
  ∃ i', i = k + i' ∧ first_match ident todos i'.
Proof.
  revert k. induction todos as [|t todos IH]; intros k; [done|].
  simpl. destruct (py_eq (Todo.id t) ident) eqn:Hid.
  - intros [= <-]. exists 0. split; [lia|].
    split; [by exists t|]. intros j t' Hj. lia.
  - intros (i' & -> & [(x & Hx & Hx') Hlt])%IH.
    exists (S i'). split; [lia|]. split; [by exists x|].
    intros [|j] t' Hj; simpl.
    + by intros [= <-].
    + apply Hlt. lia.
Qed.

Lemma scan_None ident todos k :
  TodoStorage.scan ident k todos = None → no_match ident todos.
Proof.
  revert k. induction todos as [|t todos IH]; intros k; [by intros _ ? ?%elem_of_nil|].
  simpl. destruct (py_eq (Todo.id t) ident) eqn:Hid; [done|].
  intros Hs t' [->|Ht']%elem_of_cons; [done|]. by eapply IH.
Qed.

Lemma lookup_id_first_match ident todos i :
  first_match ident todos i → TodoStorage.lookup_id ident todos = todos !! i.
Proof.
  revert i. induction todos as [|t todos IH]; intros i [(x & Hx & Hid) Hlt].
  - by rewrite lookup_nil in Hx.
  - simpl. destruct i as [|i].
    + simpl in Hx. injection Hx as ->. by rewrite Hid.
    + rewrite (Hlt 0 t) by (simpl; done || lia).
      simpl. apply IH. split; [by exists x|].
      intros j t' Hj Hj'. apply (Hlt (S j) t'); [lia|done].
Qed.

Lemma lookup_id_no_match ident todos :
  no_match ident todos → TodoStorage.lookup_id ident todos = None.
Proof.
  induction todos as [|t todos IH]; intros Hno; [done|].
  simpl. rewrite (Hno t) by set_solver.
  apply IH. intros t' Ht'. apply Hno. set_solver.
Qed.

(** Every collection has a first match or none at all. *)
Lemma first_match_or_none ident todos :
  (∃ i, first_match ident todos i) ∨ no_match ident todos.
Proof.
  destruct (TodoStorage.scan ident 0 todos) as [i|] eqn:Hs.
  - left. apply scan_Some in Hs as (i' & _ & ?). by exists i'.
  - right. by eapply scan_None.
Qed.

Lemma completed_count todos :
  (Z.of_nat (length todos)
   - Z.of_nat (length (filter (fun t => truthy (Todo.completed t) = false) todos)))%Z
  = Z.of_nat (length (filter (fun t => truthy (Todo.completed t) = true) todos)).
Proof.
  induction todos as [|t todos IH]; [done|].
  rewrite !filter_cons. destruct (truthy (Todo.completed t)) eqn:Ht.
  - rewrite decide_False, decide_True by done. simpl length. lia.
  - rewrite decide_True, decide_False by done. simpl length. lia.
Qed.

(** *** The operations, relative to what [load] returns *)

Lemma bind_run {A B} (c : M A) (k : A → M B) w a w1 :
  c w = (Ok a, w1) → bind c k w = k a w1.
Proof. unfold bind. by intros ->. Qed.

Lemma bind_raise {A B} (c : M A) (k : A → M B) w e w1 :
  c w = (Raise e, w1) → bind c k w = (Raise e, w1).
Proof. unfold bind. by intros ->. Qed.

Lemma save_run self todos w :
  TodoStorage.save self todos w = (Ok tt, written (path self) todos w).
Proof. reflexivity. Qed.

Lemma add_run self todo w todos w1 :
  TodoStorage.load self w = (Ok todos, w1) →
  TodoStorage.add self todo w = (Ok tt, written (path self) (todos ++ [todo]) w1).
Proof. intros Hl. unfold TodoStorage.add. by rewrite (bind_run _ _ _ _ _ Hl). Qed.

Lemma get_run self ident w todos w1 :
  TodoStorage.load self w = (Ok todos, w1) →
  TodoStorage.get self ident w = (Ok (TodoStorage.lookup_id ident todos), w1).
Proof. intros Hl. unfold TodoStorage.get. by rewrite (bind_run _ _ _ _ _ Hl). Qed.

Lemma update_run_match self todo w todos w1 i :
  TodoStorage.load self w = (Ok todos, w1) →
  first_match (Todo.id todo) todos i →
  TodoStorage.update self todo w
  = (Ok true, written (path self) (<[i := todo]> todos) w1).
Proof.
  intros Hl Hi. unfold TodoStorage.update. rewrite (bind_run _ _ _ _ _ Hl).
  by rewrite (scan_first_match _ _ i 0 Hi).
Qed.

Lemma update_run_none self todo w todos w1 :
  TodoStorage.load self w = (Ok todos, w1) →
  no_match (Todo.id todo) todos →
  TodoStorage.update self todo w = (Ok false, w1).
Proof.
  intros Hl Hno. unfold TodoStorage.update. rewrite (bind_run _ _ _ _ _ Hl).
  by rewrite (scan_no_match _ _ 0 Hno).
Qed.

Lemma delete_run_match self ident w todos w1 i :
  TodoStorage.load self w = (Ok todos, w1) →
  first_match ident todos i →
  TodoStorage.delete self ident w
  = (Ok true, written (path self) (delete i todos) w1).
Proof.
  intros Hl Hi. unfold TodoStorage.delete. rewrite (bind_run _ _ _ _ _ Hl).
  by rewrite (scan_first_match _ _ i 0 Hi).
Qed.

Lemma delete_run_none self ident w todos w1 :
  TodoStorage.load self w = (Ok todos, w1) →
  no_match ident todos →
  TodoStorage.delete self ident w = (Ok false, w1).
Proof.
  intros Hl Hno. unfold TodoStorage.delete. rewrite (bind_run _ _ _ _ _ Hl).
  by rewrite (scan_no_match _ _ 0 Hno).
Qed.

Lemma clear_completed_run self w todos w1 :
  TodoStorage.load self w = (Ok todos, w1) →
  TodoStorage.clear_completed self w
  = (Ok (Z.of_nat (length (filter (fun t => truthy (Todo.completed t) = true) todos))),
     written (path self)
       (filter (fun t => truthy (Todo.completed t) = false) todos) w1).
Proof.
  intros Hl. unfold TodoStorage.clear_completed.
  rewrite (bind_run _ _ _ _ _ Hl). simpl.
  unfold bind. rewrite save_run. unfold ret. by rewrite completed_count.
Qed.

(** *** load *)

Lemma load_absent self w :
  files w !! path self = None → TodoStorage.load self w = (Ok [], w).
Proof.
  intros Hf. unfold TodoStorage.load, bind, pathlib.exists_.
  rewrite Hf. by rewrite bool_decide_eq_false_2 by (by intros [? ?]).
Qed.

Lemma mapM_Forall {A B} (f : A → M B) (P : B → Prop) (l : list A) w ys w1 :
  (∀ x w y w', f x w = (Ok y, w') → P y) →
  mapM f l w = (Ok ys, w1) → Forall P ys.
Proof.
  intros Hf. revert w ys. induction l as [|x l IH]; intros w ys; simpl.
  - unfold ret. by intros [= <- _].
  - unfold bind. destruct (f x w) as [[y|e] w'] eqn:Hx; [|done].
    destruct (mapM f l w') as [[ys'|e] w''] eqn:Hl; [|done].
    unfold ret. intros [= <- <-]. constructor; [by eapply Hf|by eapply IH].
Qed.

Lemma mapM_frame {A B} (f : A → M B) (l : list A) w r w1 :
  (∀ x w r w', f x w = (r, w') → files w' = files w) →
  mapM f l w = (r, w1) → files w1 = files w.
Proof.
  intros Hf. revert w r. induction l as [|x l IH]; intros w r; simpl.
  - unfold ret. by intros [= _ <-].
  - unfold bind. destruct (f x w) as [[y|e] w'] eqn:Hx.
    + destruct (mapM f l w') as [[ys'|e] w''] eqn:Hl.
      * unfold ret. intros [= _ <-]. erewrite IH by done. eauto.
      * intros [= _ <-]. erewrite IH by done. eauto.
    + intros [= _ <-]. eauto.
Qed.

Lemma mapM_id {A B} (f : A → M B) (g : B → A) (ys : list B) w :
  (∀ y, y ∈ ys → f (g y) w = (Ok y, w)) →
  mapM f (g <$> ys) w = (Ok ys, w).
Proof.
  induction ys as [|y ys IH]; intros Hf; [done|].
  csimpl. unfold bind. rewrite Hf by set_solver.
  rewrite IH by (intros; apply Hf; set_solver). done.
Qed.

Lemma from_dict_frame data w r w' :
  Todo.from_dict data w = (r, w') → files w' = files w.
Proof.
  unfold Todo.from_dict, bind, lift, ret.
  assert (∀ kw, files (Todo.init kw w).2 = files w) as Hinit.
  { intros kw. destruct (decide (known_keys kw)).
    - rewrite init_known by done. simpl. by destruct (kw !! "id").
    - by rewrite init_unknown. }
  destruct (data !! "priority") as [v|].
  - destruct (as_str v) as [s|].
    + destruct (Priority.call s).
      * intros Heq. specialize (Hinit (<["priority":=E a]> data)).
        by rewrite Heq in Hinit.
      * by intros [= _ <-].
    + intros Heq. specialize (Hinit data). by rewrite Heq in Hinit.
  - intros Heq. specialize (Hinit data). by rewrite Heq in Hinit.
Qed.

Lemma from_dict_value_frame item w r w' :
  Todo.from_dict_value item w = (r, w') → files w' = files w.
Proof.
  destruct item; simpl; unfold raise; try by intros [= _ <-].
  apply from_dict_frame.
Qed.

(** A record that [from_dict] builds from JSON data has the shape
    [from_json]. *)
Lemma init_from_json kw w x w' :
  (∀ k v, k ≠ "priority" → kw !! k = Some v → is_json v = true) →
  (∀ v, kw !! "priority" = Some v → is_str v = false) →
  Todo.init kw w = (Ok x, w') → from_json x = true.
Proof.
  intros Hj Hp. destruct (decide (known_keys kw)) as [Hk|Hk].
  - rewrite init_known by done. intros [= <- _]. unfold from_json. simpl.
    assert (∀ k u, k ≠ "priority" → is_json u = true →
                   is_json (default u (kw !! k)) = true) as Hd.
    { intros k u Hk' Hu. specialize (Hj k).
      destruct (kw !! k); simpl; [by eapply Hj|done]. }
    rewrite !Hd by done.
    destruct (kw !! "priority") as [v|]; simpl; [|done].
    by rewrite (Hp v).
  - by rewrite init_unknown.
Qed.

Lemma from_dict_value_from_json item w x w' :
  Todo.from_dict_value item w = (Ok x, w') → from_json x = true.
Proof.
  destruct item as [| | | | |members]; simpl; unfold raise; try done.
  unfold dict_of_members. set (m := list_to_map members : gmap string json).
  assert (∀ k v, (V <$> m) !! k = Some v → is_json v = true) as Hm.
  { intros k v. rewrite lookup_fmap. by destruct (m !! k); intros [= <-]. }
  unfold Todo.from_dict, bind, lift, ret.
  destruct ((V <$> m) !! "priority") as [v|] eqn:Hv.
  - destruct (as_str v) as [s|] eqn:Hs.
    + destruct (Priority.call s) as [p|]; [|done].
      apply init_from_json.
      * intros k u Hk. rewrite lookup_insert_ne by done. apply Hm.
      * rewrite lookup_insert_eq. by intros u [= <-].
    + apply init_from_json.
      * intros k u _. apply Hm.
      * rewrite Hv. intros u [= <-]. by destruct v as [[]|].
  - apply init_from_json.
    + intros k u _. apply Hm.
    + by rewrite Hv.
Qed.

(** Written by [save] and read back, such a record is itself. *)
Lemma from_dict_value_to_dict x w :
  from_json x = true →
  Todo.from_dict_value (json_of_dict (Todo.to_dict x)) w = (Ok x, w).
Proof.
  destruct x as [i ti de co pr ca du cr ca']. unfold from_json. simpl.
  intros Hx. repeat (apply andb_prop in Hx as [Hx ?]).
  destruct i, ti, de, co, ca, du, cr, ca'; try discriminate.
  destruct pr as [[| | |s| |]|[]]; try discriminate; reflexivity.
Qed.

Lemma load_present self w doc items :
  files w !! path self = Some (FJson doc) →
  py_iter doc = Ok items →
  TodoStorage.load self w =
    try_except (mapM Todo.from_dict_value items)
      [JSONDecodeError; KeyError; ValueError]
      (let* backup := lift (pathlib.with_suffix (path self) ".json.bak") in
       let* present := pathlib.exists_ (path self) in
       let* _ := (if present then pathlib.rename (path self) backup
                  else ret tt) in
       ret []) w.
Proof.
  intros Hf Hi. unfold TodoStorage.load.
  unfold bind at 1. unfold pathlib.exists_ at 1.
  rewrite Hf, bool_decide_eq_true_2 by done. simpl.
  unfold try_except. unfold bind at 1. unfold json_load. rewrite Hf.
  unfold bind at 1. unfold lift at 1. by rewrite Hi.
Qed.

(** What [save] wrote is what [load] returns, for records of the shape
    [from_json]; the second [load] changes nothing. *)
Lemma load_written self todos w :
  Forall (fun t => from_json t = true) todos →
  TodoStorage.load self (written (path self) todos w)
  = (Ok todos, written (path self) todos w).
Proof.
  intros Hall.
  assert (files (written (path self) todos w) !! path self = Some (document todos))
    as Hf by apply lookup_insert_eq.
  unfold document in Hf. rewrite (load_present self _ _ _ Hf eq_refl).
  unfold try_except.
  rewrite (mapM_id Todo.from_dict_value (fun t => json_of_dict (Todo.to_dict t))); [done|].
  intros t Ht. apply from_dict_value_to_dict.
  by eapply (proj1 (Forall_forall _ _)) in Hall.
Qed.

(** [load] returns records of the shape [from_json]. *)
Lemma load_from_json self w todos w1 :
  TodoStorage.load self w = (Ok todos, w1) →
  Forall (fun t => from_json t = true) todos.
Proof.
  unfold TodoStorage.load. unfold bind at 1. unfold pathlib.exists_ at 1.
  destruct (bool_decide (is_Some (files w !! path self))); simpl.
  2:{ unfold ret. by intros [= <- _]. }
  unfold try_except.
  match goal with |- context [bind ?c ?k w] => destruct (bind c k w) as [[l|e] w'] eqn:Hb end.
  - intros [= <- _]. revert Hb. unfold bind at 1.
    destruct (json_load _ w) as [[doc|?] w2]; [|done].
    unfold bind at 1. unfold lift at 1.
    destruct (py_iter doc) as [items|]; [|done].
    apply mapM_Forall. apply from_dict_value_from_json.
  - destruct (handles _ e); [|done].
    unfold bind at 1. unfold lift at 1.
    destruct (pathlib.with_suffix _ _); [|done].
    unfold bind at 1. unfold pathlib.exists_ at 1.
    unfold bind at 1.
    destruct (bool_decide _).
    + unfold pathlib.rename. destruct (files w' !! path self); [|done].
      unfold ret. by intros [= <- _].
    + unfold ret. by intros [= <- _].
Qed.

(** When the try block raises an exception of the except clause, the
    file is moved to its backup and the result is empty. *)
Lemma load_malformed_text self w raw backup :
  files w !! path self = Some (FText raw) →
  pathlib.with_suffix (path self) ".json.bak" = Ok backup →
  TodoStorage.load self w
  = (Ok [], set_files (fun fs => <[backup := FText raw]> (delete (path self) fs)) w).
Proof.
  intros Hf Hb. unfold TodoStorage.load.
  unfold bind at 1. unfold pathlib.exists_ at 1.
  rewrite Hf, bool_decide_eq_true_2 by done. simpl.
  unfold try_except. unfold bind at 1. unfold json_load. rewrite Hf. simpl.
  unfold bind, lift, pathlib.exists_, pathlib.rename. rewrite Hb, Hf.
  rewrite bool_decide_eq_true_2 by done. by rewrite Hf.
Qed.

Lemma assoc_list_to_map {A} (k : string) (l : list (string * A)) :
  assoc k l = (list_to_map l : gmap string A) !! k.
Proof.
  induction l as [|[k' v] l IH]; simpl; [done|].
  destruct (String.eqb_spec k k') as [->|Hne].
  - by rewrite lookup_insert_eq.
  - by rewrite lookup_insert_ne.
Qed.

(** An exception of the try block that the except clause does not list
    leaves [load]. *)
Lemma load_unhandled self w doc items e w1 :
  files w !! path self = Some (FJson doc) →
  py_iter doc = Ok items →
  mapM Todo.from_dict_value items w = (Raise e, w1) →
  handles [JSONDecodeError; KeyError; ValueError] e = false →
  TodoStorage.load self w = (Raise e, w1).
Proof.
  intros Hf Hi Hm He. rewrite (load_present self w doc items Hf Hi).
  unfold try_except. by rewrite Hm, He.
Qed.

(** C1, where it fails: the items file holds a JSON list whose first
    item is an object with a key that is not a field of [Todo] (and with
    no unrecognised priority string).  [from_dict] raises [TypeError];
    the except clause of [load] lists [JSONDecodeError], [KeyError] and
    [ValueError] only, so [load] raises [TypeError] to its caller and
    the world stays as it was: no backup is made and no empty collection
    is returned. *)
Theorem load_unknown_key_raises self w members rest :
  files w !! path self = Some (FJson (JArr (JObj members :: rest))) →
  ¬ known_keys (dict_of_members members) →
  (∀ s, assoc "priority" members = Some (JStr s) → s ∈ priority_strings) →
  TodoStorage.load self w = (Raise TypeError, w).
Proof.
  intros Hf Hk Hp.
  apply (load_unhandled self w (JArr (JObj members :: rest)) (JObj members :: rest));
    [done|done| |done].
  simpl. apply bind_raise. simpl.
  apply from_dict_unknown_key; [done|].
  intros v s. unfold dict_of_members. rewrite lookup_fmap.
  destruct (list_to_map members !! "priority") as [j|] eqn:Hj; [|done].
  intros [= <-]. destruct j; try done. intros [= <-].
  apply Hp. by rewrite assoc_list_to_map.
Qed.

(** C8: when no file exists at the path, [load] returns the empty
    collection and the world it leaves is the world it found: no error,
    and no file created. *)
Theorem load_missing_file self w :
  files w !! path self = None →
  TodoStorage.load self w = (Ok [], w) ∧
  files (TodoStorage.load self w).2 !! path self = None.
Proof. intros Hf. rewrite load_absent by done. by split. Qed.

(** C6, as amended: let [todos] be the collection [load] returns.  If
    [i] is the first index whose item has the id of [u], [update]
    writes the collection with [u] at index [i] and returns [True]; in
    what it wrote index [i] holds [u], every other index holds what it
    held, and the size is the same.  If no item has that id, [update]
    returns [False] and leaves the world as [load] left it (nothing is
    written). *)
Theorem update_first_match self u w todos w1 :
  TodoStorage.load self w = (Ok todos, w1) →
  (∀ i, first_match (Todo.id u) todos i →
     TodoStorage.update self u w
     = (Ok true, written (path self) (<[i := u]> todos) w1) ∧
     <[i := u]> todos !! i = Some u ∧
     (∀ j, j ≠ i → <[i := u]> todos !! j = todos !! j) ∧
     length (<[i := u]> todos) = length todos) ∧
  (no_match (Todo.id u) todos →
     TodoStorage.update self u w = (Ok false, w1)).
Proof.
  intros Hl. split.
  - intros i Hi. split_and!.
    + by apply update_run_match.
    + destruct Hi as [(t & Ht & _) _].
      apply list_lookup_insert_eq. by eapply lookup_lt_Some.
    + intros j Hj. by apply list_lookup_insert_ne.
    + apply length_insert.
  - by apply update_run_none.
Qed.

Lemma none_completed_kept todos :
  length (filter (fun t => truthy (Todo.completed t) = true)
            (filter (fun t => truthy (Todo.completed t) = false) todos)) = 0.
Proof.
  rewrite list_filter_filter.
  induction todos as [|t l IH]; [done|].
  rewrite filter_cons. case_decide as Hd; [|done].
  destruct Hd. congruence.
Qed.

(** C7: let [todos] be the collection [load] returns.
    [clear_completed] writes the items of [todos] whose [completed] is
    false, in their order, and returns the number of items it removed,
    which is the number of items whose [completed] is true; a [load]
    after it returns exactly the written items, none of which is
    completed. *)
Theorem clear_completed_removes_completed self w todos w1 :
  TodoStorage.load self w = (Ok todos, w1) →
  let kept := filter (fun t => truthy (Todo.completed t) = false) todos in
  let w' := written (path self) kept w1 in
  TodoStorage.clear_completed self w
  = (Ok (Z.of_nat (length todos) - Z.of_nat (length kept))%Z, w') ∧
  (Z.of_nat (length todos) - Z.of_nat (length kept))%Z
  = Z.of_nat (length (filter (fun t => truthy (Todo.completed t) = true) todos)) ∧
  kept `sublist_of` todos ∧
  (∀ t, t ∈ kept ↔ t ∈ todos ∧ truthy (Todo.completed t) = false) ∧
  TodoStorage.load self w' = (Ok kept, w') ∧
  length (filter (fun t => truthy (Todo.completed t) = true) kept) = 0.
Proof.
  intros Hl kept w'. split_and!.
  - rewrite (clear_completed_run _ _ _ _ Hl). by rewrite <-completed_count.
  - apply completed_count.
  - apply sublist_filter.
  - intros t. unfold kept. rewrite list_elem_of_filter. tauto.
  - apply load_written. apply load_from_json in Hl.
    rewrite Forall_forall in Hl |- *. intros t Ht. apply Hl.
    unfold kept in Ht. by apply list_elem_of_filter in Ht as [_ ?].
  - apply none_completed_kept.
Qed.

(** C9: let [todos] be the collection [load] returns.  [add] writes
    [todos] with its argument appended, whatever ids [todos] holds; when
    some item has the id [ident], [i] being the first index of such an
    item, [get] returns the item at [i], [update] replaces the item at
    [i] and no other, and [delete] removes the item at [i] and no other
    and returns [True]. *)
Theorem duplicate_ids_first_match self w todos w1 :
  TodoStorage.load self w = (Ok todos, w1) →
  (∀ t, TodoStorage.add self t w
        = (Ok tt, written (path self) (todos ++ [t]) w1) ∧
        (from_json t = true →
         TodoStorage.load self (written (path self) (todos ++ [t]) w1)
         = (Ok (todos ++ [t]), written (path self) (todos ++ [t]) w1))) ∧
  (∀ ident i, first_match ident todos i →
     TodoStorage.get self ident w = (Ok (todos !! i), w1) ∧
     is_Some (todos !! i) ∧
     TodoStorage.delete self ident w
     = (Ok true, written (path self) (delete i todos) w1) ∧
     length (delete i todos) = length todos - 1 ∧
     (∀ j, j < i → delete i todos !! j = todos !! j) ∧
     (∀ j, i ≤ j → delete i todos !! j = todos !! S j)) ∧
  (∀ u i, first_match (Todo.id u) todos i →
     TodoStorage.update self u w
     = (Ok true, written (path self) (<[i := u]> todos) w1) ∧
     (∀ j, j ≠ i → <[i := u]> todos !! j = todos !! j)).
Proof.
  intros Hl. split_and!.
  - intros t. split; [by apply add_run|]. intros Ht.
    apply load_written. apply Forall_app. split; [by eapply load_from_json|].
    by constructor.
  - intros ident i Hi.
    assert (is_Some (todos !! i)) as Hsome.
    { destruct Hi as [(t & -> & _) _]. by eexists. }
    split_and!; [|done|by apply delete_run_match|by apply length_delete|..].
    + rewrite (get_run _ _ _ _ _ Hl). by rewrite (lookup_id_first_match _ _ i).
    + intros j Hj. by apply list_lookup_delete_lt.
    + intros j Hj. by apply list_lookup_delete_ge.
  - intros u i Hi. split; [by apply update_run_match|].
    intros j Hj. by apply list_lookup_insert_ne.
Qed.

(** C10: let [todos] be the collection [load] returns.
    [clear_completed] writes the items file whatever the number of
    items it removes, whereas [update] and [delete] leave the world as
    [load] left it when no item matches.  When no file exists at the
    path, [clear_completed] returns 0 and creates the file, holding the
    empty collection; [update] and [delete] return [False] and create
    nothing. *)
Theorem clear_completed_always_writes self w todos w1 :
  TodoStorage.load self w = (Ok todos, w1) →
  (∃ n, TodoStorage.clear_completed self w
        = (Ok n, written (path self)
                   (filter (fun t => truthy (Todo.completed t) = false) todos) w1)) ∧
  (∀ u, no_match (Todo.id u) todos →
        TodoStorage.update self u w = (Ok false, w1)) ∧
  (∀ ident, no_match ident todos →
            TodoStorage.delete self ident w = (Ok false, w1)) ∧
  (files w !! path self = None →
     TodoStorage.clear_completed self w
     = (Ok 0%Z, set_files (fun fs => <[path self := FJson (JArr [])]> fs) w) ∧
     (∀ u, TodoStorage.update self u w = (Ok false, w)) ∧
     (∀ ident, TodoStorage.delete self ident w = (Ok false, w))).
Proof.
  intros Hl. split_and!.
  - eexists. by apply clear_completed_run.
  - intros u Hu. by eapply update_run_none.
  - intros ident Hi. by eapply delete_run_none.
  - intros Hf. pose proof (load_absent self w Hf) as Hl'.
    split_and!.
    + by rewrite (clear_completed_run _ _ _ _ Hl').
    + intros u. apply (update_run_none _ _ _ _ _ Hl'). by intros ? ?%elem_of_nil.
    + intros ident. apply (delete_run_none _ _ _ _ _ Hl'). by intros ? ?%elem_of_nil.
Qed.

End storage_properties.

(** ** pathlib: the name of the backup *)

Section backup_name.

Lemma string_length_app (s1 s2 : string) :
  String.length (s1 +:+ s2) = String.length s1 + String.length s2.
Proof. induction s1 as [|a s1 IH]; simpl; [done|]. by rewrite IH. Qed.

Lemma substring_all (s : string) : String.substring 0 (String.length s) s = s.
Proof. induction s as [|a s IH]; simpl; [done|]. by rewrite IH. Qed.

Lemma substring_app_l (s1 s2 : string) :
  String.substring 0 (String.length s1) (s1 +:+ s2) = s1.
Proof.
  induction s1 as [|a s1 IH]; simpl; [by destruct s2|]. by rewrite IH.
Qed.

Lemma substring_app_r (s1 s2 : string) :
  String.substring (String.length s1) (String.length s2) (s1 +:+ s2) = s2.
Proof. induction s1 as [|a s1 IH]; simpl; [apply substring_all|done]. Qed.

Lemma rfind_app (c : ascii) (s1 s2 : string) (i : nat) :
  pathlib.rfind c s2 = Some i →
  pathlib.rfind c (s1 +:+ s2) = Some (String.length s1 + i).
Proof. intros Hi. induction s1 as [|a s1 IH]; simpl; [done|]. by rewrite IH. Qed.

Lemma string_app_assoc (s1 s2 s3 : string) :
  (s1 +:+ s2) +:+ s3 = s1 +:+ (s2 +:+ s3).
Proof.
  induction s1 as [|a s1 IH]; [done|].
  change (String a ((s1 +:+ s2) +:+ s3) = String a (s1 +:+ s2 +:+ s3)).
  by rewrite IH.
Qed.

(** For a data file [<stem>.json] the backup is [<stem>.json.bak], in
    the same directory. *)
Lemma with_suffix_json (dir : Path) (stem : string) :
  stem ≠ "" →
  pathlib.with_suffix (dir ++ [stem +:+ ".json"]) ".json.bak"
  = Ok (dir ++ [(stem +:+ ".json") +:+ ".bak"]).
Proof.
  intros Hstem. unfold pathlib.with_suffix, pathlib.suffix, pathlib.name.
  rewrite last_snoc. simpl default.
  assert (0 < String.length stem) as Hlen.
  { destruct stem; [done|simpl; lia]. }
  assert (String.eqb (stem +:+ ".json") "" = false) as ->.
  { destruct stem; [done|]. reflexivity. }
  rewrite (rfind_app _ stem ".json" 0) by reflexivity.
  rewrite string_length_app. simpl (String.length ".json").
  rewrite Nat.add_0_r.
  assert ((0 <? String.length stem) && (String.length stem <? String.length stem + 5 - 1) = true) as ->.
  { apply andb_true_intro. split; apply Nat.ltb_lt; lia. }
  replace (String.length stem + 5 - String.length stem) with (String.length ".json")
    by (simpl; lia).
  rewrite substring_app_r. simpl (String.eqb ".json" "").
  simpl (String.length ".json").
  replace (String.length stem + 5 - 5) with (String.length stem) by lia.
  rewrite substring_app_l.
  rewrite length_app. simpl length.
  replace (length dir + 1 - 1) with (length dir) by lia.
  rewrite take_app_length. by rewrite string_app_assoc.
Qed.

(** Any other extension is replaced, not extended. *)
Example with_suffix_txt :
  pathlib.with_suffix ["home"; "user"; "todos.txt"] ".json.bak"
  = Ok ["home"; "user"; "todos.json.bak"].
Proof. reflexivity. Qed.

End backup_name.

Section corruption_recovery.
Context `{Runtime}.

(** The part of the recovery that holds: a data file [<stem>.json]
    whose text is not JSON is moved to [<stem>.json.bak] (whatever was
    there is replaced), and [load] returns the empty collection. *)
Lemma load_malformed_json (dir : Path) (stem raw : string) (w : World) :
  stem ≠ "" →
  let p := dir ++ [stem +:+ ".json"] in
  let backup := dir ++ [(stem +:+ ".json") +:+ ".bak"] in
  files w !! p = Some (FText raw) →
  TodoStorage.load {| TodoStorage.data_file := p |} w
  = (Ok [], set_files (fun fs => <[backup := FText raw]> (delete p fs)) w).
Proof.
  intros Hstem p backup Hf.
  apply (load_malformed_text {| TodoStorage.data_file := p |}); [done|].
  by apply with_suffix_json.
Qed.

(** An item whose priority string is not recognised is handled the
    same way: [ValueError] is in the except clause. *)
Example load_invalid_priority_recovers :
  let doc := JArr [JObj [("title", JStr "Buy milk"); ("priority", JStr "urgent")]] in
  TodoStorage.load demo_storage
    (demo_world {[ TodoStorage.data_file demo_storage := FJson doc ]})
  = (Ok [], demo_world {[ ["home"; "user"; ".todocli"; "todos.json.bak"] := FJson doc ]}).
Proof. reflexivity. Qed.

(** An item that is not an object escapes the except clause as well. *)
Example load_non_object_item_raises :
  let w := demo_world {[ TodoStorage.data_file demo_storage := FJson (JArr [JInt 1]) ]} in
  TodoStorage.load demo_storage w = (Raise AttributeError, w).
Proof. reflexivity. Qed.

End corruption_recovery.

(** ** The properties at concrete inputs *)

Section examples.
#[local] Existing Instance demo_runtime.


Lemma load_unknown_key_raises_witness :
  let doc := JArr [JObj [("title", JStr "Buy milk"); ("tags", JArr [])]] in
  let w := demo_world {[ TodoStorage.data_file demo_storage := FJson doc ]} in
  TodoStorage.load demo_storage w = (Raise TypeError, w).
Proof.
  intros doc w.
  apply (load_unknown_key_raises demo_storage w
           [("title", JStr "Buy milk"); ("tags", JArr [])] []).
  - reflexivity.
  - intros Hk. specialize (Hk "tags" (V (JArr [])) eq_refl). simpl in Hk.
    unfold Todo.field_names in Hk.
    repeat (apply elem_of_cons in Hk as [Hk|Hk]; [discriminate Hk|]).
    by apply elem_of_nil in Hk.
  - intros s Hs. discriminate Hs.
Defined.

Lemma from_dict_to_dict_valid_witness :
  valid milk = true ∧
  Todo.from_dict (Todo.to_dict milk) (demo_world ∅) = (Ok milk, demo_world ∅).
Proof.
  split; [reflexivity|].
  apply (from_dict_to_dict_valid milk (demo_world ∅)). reflexivity.
Defined.

Lemma from_dict_invalid_priority_witness :
  Todo.from_dict {[ "title" := str "Buy milk"; "priority" := str "urgent" ]} (demo_world ∅)
  = (Raise ValueError, demo_world ∅).
Proof.
  apply (from_dict_invalid_priority _ "urgent").
  - reflexivity.
  - unfold priority_strings. intros Hin.
    repeat (apply elem_of_cons in Hin as [Hin|Hin]; [discriminate Hin|]).
    by apply elem_of_nil in Hin.
Defined.

(** C4, the claim as stated fails: a mapping with a key that is not a
    field of [Todo] is no record with defaults, it is a [TypeError]. *)
Lemma from_dict_unknown_key_counterexample :
  ("tags" ∉ Todo.field_names) ∧
  Todo.from_dict {[ "title" := str "Buy milk"; "tags" := V (JArr []) ]} (demo_world ∅)
  = (Raise TypeError, demo_world ∅).
Proof.
  split; [|reflexivity].
  unfold Todo.field_names. intros Hin.
  repeat (apply elem_of_cons in Hin as [Hin|Hin]; [discriminate Hin|]).
  by apply elem_of_nil in Hin.
Qed.

Lemma from_dict_defaults_witness :
  ∃ x, Todo.from_dict {[ "title" := str "Buy milk" ]} (demo_world ∅)
       = (Ok x, drawn (demo_world ∅)) ∧
       Todo.id x = str "uuid-" ∧
       Todo.completed x = V (JBool false) ∧
       Todo.priority x = E Priority.MEDIUM ∧
       Todo.due_date x = None_ ∧
       Todo.created_at x = str "2023-11-14T22:13:20".
Proof.
  destruct (from_dict_defaults {[ "title" := str "Buy milk" ]} (demo_world ∅))
    as [Hok _].
  destruct Hok as (x & Hx & Hid & _ & _ & Hco & Hpr & _ & _ & _ & Hdu & Hcr & _).
  - apply map_Forall_singleton. unfold Todo.field_names. set_solver.
  - intros v s Hv. discriminate Hv.
  - exists x. split_and!; [exact Hx|exact Hid|exact Hco|by apply Hpr|exact Hdu|exact Hcr].
Defined.

Lemma is_overdue_iff_witness :
  let t := {| Todo.id := str "7"; Todo.title := str "Buy milk";
              Todo.description := str ""; Todo.completed := V (JBool false);
              Todo.priority := E Priority.HIGH; Todo.category := str "";
              Todo.due_date := str "2000-01-01";
              Todo.created_at := str "1999-12-01T00:00:00";
              Todo.completed_at := None_ |} in
  Todo.is_overdue t (demo_world ∅) = (Ok true, demo_world ∅).
Proof.
  intros t.
  assert (fromisoformat "" = None) as Hempty by reflexivity.
  destruct (is_overdue_iff t (demo_world ∅) Hempty) as (b & Hb & Hiff).
  rewrite Hb. f_equal. f_equal. apply Hiff.
  split; [reflexivity|].
  exists "2000-01-01", {| wall := 946684800; utcoffset := None |}.
  split_and!; [reflexivity|reflexivity|reflexivity|simpl; lia].
Defined.

(** C5, the claim as stated fails: the item is not completed, its due
    date is present and parses, to midnight of 1 January 2000 in UTC,
    which is before the current moment (14 November 2023, more than a
    day later, so in every time zone); yet [is_overdue] is false,
    because a value with a UTC offset does not compare with the naive
    [datetime.now()] and the [TypeError] is swallowed. *)
Lemma is_overdue_aware_counterexample :
  let t := {| Todo.id := str "7"; Todo.title := str "Buy milk";
              Todo.description := str ""; Todo.completed := V (JBool false);
              Todo.priority := E Priority.HIGH; Todo.category := str "";
              Todo.due_date := str "2000-01-01T00:00:00+00:00";
              Todo.created_at := str "1999-12-01T00:00:00";
              Todo.completed_at := None_ |} in
  let d := {| wall := 946684800; utcoffset := Some 0%Z |} in
  truthy (Todo.completed t) = false ∧
  as_str (Todo.due_date t) = Some "2000-01-01T00:00:00+00:00" ∧
  fromisoformat "2000-01-01T00:00:00+00:00" = Some d ∧
  (wall d - 0 + 86400 < clock (demo_world ∅))%Z ∧
  Todo.is_overdue t (demo_world ∅) = (Ok false, demo_world ∅).
Proof. intros t d. split_and!; reflexivity. Qed.

(** The overdue computations the specification lists. *)
Example is_overdue_completed :
  Todo.is_overdue
    {| Todo.id := str "7"; Todo.title := str ""; Todo.description := str "";
       Todo.completed := V (JBool true); Todo.priority := E Priority.LOW;
       Todo.category := str ""; Todo.due_date := str "2000-01-01";
       Todo.created_at := str ""; Todo.completed_at := None_ |} (demo_world ∅)
  = (Ok false, demo_world ∅).
Proof. reflexivity. Qed.

Example is_overdue_no_due_date :
  Todo.is_overdue milk (demo_world ∅) = (Ok false, demo_world ∅).
Proof. reflexivity. Qed.

(** A due date with a UTC offset parses, but does not compare with the
    naive current moment: not overdue. *)
Example is_overdue_aware_due_date :
  Todo.is_overdue
    {| Todo.id := str "7"; Todo.title := str ""; Todo.description := str "";
       Todo.completed := V (JBool false); Todo.priority := E Priority.LOW;
       Todo.category := str ""; Todo.due_date := str "2000-01-01T00:00:00+00:00";
       Todo.created_at := str ""; Todo.completed_at := None_ |} (demo_world ∅)
  = (Ok false, demo_world ∅).
Proof. reflexivity. Qed.

(** The scenario of the specification: add an item, list, mark it
    completed, clear, list. *)
Example buy_milk_scenario :
  let done := demo_todo "7" "Buy milk" true in
  TodoStorage.add demo_storage milk (demo_world ∅) = (Ok tt, stored [milk]) ∧
  TodoStorage.load demo_storage (stored [milk]) = (Ok [milk], stored [milk]) ∧
  TodoStorage.get demo_storage (str "7") (stored [milk]) = (Ok (Some milk), stored [milk]) ∧
  TodoStorage.update demo_storage done (stored [milk]) = (Ok true, stored [done]) ∧
  TodoStorage.clear_completed demo_storage (stored [done]) = (Ok 1%Z, stored []) ∧
  TodoStorage.load demo_storage (stored []) = (Ok [], stored []).
Proof. intros done. split_and!; reflexivity. Qed.

(** Text that is not JSON: the collection is empty and the backup holds
    the text; an older backup is replaced. *)
Example load_garbage :
  let backup := ["home"; "user"; ".todocli"; "todos.json.bak"] in
  TodoStorage.load demo_storage
    (demo_world {[ TodoStorage.data_file demo_storage := FText "{not json";
                   backup := FText "older" ]})
  = (Ok [], demo_world {[ backup := FText "{not json" ]}).
Proof. reflexivity. Qed.

Lemma load_missing_file_witness :
  TodoStorage.load demo_storage (demo_world ∅) = (Ok [], demo_world ∅).
Proof. apply (load_missing_file demo_storage (demo_world ∅)). reflexivity. Defined.

(** C6, the claim as stated fails: two stored items share the id of
    [u]; the item at index 1 has that id, yet [update] leaves it as it
    was and replaces the item at index 0. *)
Lemma update_second_match_counterexample :
  let u := demo_todo "7" "Buy oat milk" false in
  TodoStorage.load demo_storage (stored [milk; eggs]) = (Ok [milk; eggs], stored [milk; eggs]) ∧
  [milk; eggs] !! 1 = Some eggs ∧
  py_eq (Todo.id eggs) (Todo.id u) = true ∧
  TodoStorage.update demo_storage u (stored [milk; eggs]) = (Ok true, stored [u; eggs]) ∧
  TodoStorage.load demo_storage (stored [u; eggs]) = (Ok [u; eggs], stored [u; eggs]) ∧
  [u; eggs] !! 1 = Some eggs ∧
  eggs ≠ u ∧
  [u; eggs] !! 0 ≠ [milk; eggs] !! 0.
Proof. intros u. split_and!; try reflexivity; discriminate. Qed.

Lemma update_first_match_witness :
  let u := demo_todo "7" "Buy oat milk" false in
  TodoStorage.update demo_storage u (stored [bread; milk; eggs])
  = (Ok true, stored [bread; u; eggs]) ∧
  TodoStorage.update demo_storage tea (stored [bread; milk; eggs])
  = (Ok false, stored [bread; milk; eggs]).
Proof.
  intros u.
  assert (TodoStorage.load demo_storage (stored [bread; milk; eggs])
          = (Ok [bread; milk; eggs], stored [bread; milk; eggs])) as Hl by reflexivity.
  split.
  - destruct (update_first_match demo_storage u _ _ _ Hl) as [Hm _].
    destruct (Hm 1) as [Hu _]; [|rewrite Hu; by vm_compute].
    split; [exists milk; split; reflexivity|].
    intros j t Hj Ht. destruct j as [|j]; [|lia].
    simpl in Ht. injection Ht as <-. reflexivity.
  - destruct (update_first_match demo_storage tea _ _ _ Hl) as [_ Hn].
    apply Hn. intros t Ht.
    repeat (apply elem_of_cons in Ht as [->|Ht]; [reflexivity|]).
    apply elem_of_nil in Ht. destruct Ht.
Defined.

Lemma clear_completed_removes_completed_witness :
  TodoStorage.clear_completed demo_storage (stored [milk; eggs; bread; tea])
  = (Ok 2%Z, stored [milk; tea]) ∧
  TodoStorage.load demo_storage (stored [milk; tea]) = (Ok [milk; tea], stored [milk; tea]).
Proof.
  assert (TodoStorage.load demo_storage (stored [milk; eggs; bread; tea])
          = (Ok [milk; eggs; bread; tea], stored [milk; eggs; bread; tea])) as Hl
    by reflexivity.
  destruct (clear_completed_removes_completed demo_storage _ _ _ Hl)
    as (Hrun & _ & _ & _ & Hload & _).
  split; [exact Hrun|exact Hload].
Defined.

Lemma duplicate_ids_first_match_witness :
  TodoStorage.add demo_storage eggs (stored [milk]) = (Ok tt, stored [milk; eggs]) ∧
  TodoStorage.load demo_storage (stored [milk; eggs]) = (Ok [milk; eggs], stored [milk; eggs]) ∧
  TodoStorage.get demo_storage (str "7") (stored [milk; eggs]) = (Ok (Some milk), stored [milk; eggs]) ∧
  TodoStorage.delete demo_storage (str "7") (stored [milk; eggs]) = (Ok true, stored [eggs]).
Proof.
  assert (TodoStorage.load demo_storage (stored [milk])
          = (Ok [milk], stored [milk])) as Hl1 by reflexivity.
  assert (TodoStorage.load demo_storage (stored [milk; eggs])
          = (Ok [milk; eggs], stored [milk; eggs])) as Hl2 by reflexivity.
  destruct (duplicate_ids_first_match demo_storage _ _ _ Hl1) as (Hadd & _ & _).
  destruct (duplicate_ids_first_match demo_storage _ _ _ Hl2) as (_ & Hfirst & _).
  destruct (Hadd eggs) as [Hrun Hback].
  destruct (Hfirst (str "7") 0) as (Hget & _ & Hdel & _).
  { split; [exists milk; split; reflexivity|]. intros j t Hj. lia. }
  split_and!; [exact Hrun|by apply Hback|exact Hget|exact Hdel].
Defined.

Lemma clear_completed_always_writes_witness :
  TodoStorage.clear_completed demo_storage (demo_world ∅) = (Ok 0%Z, stored []) ∧
  files (stored []) !! TodoStorage.data_file demo_storage = Some (FJson (JArr [])) ∧
  TodoStorage.update demo_storage milk (demo_world ∅) = (Ok false, demo_world ∅) ∧
  TodoStorage.delete demo_storage (str "7") (demo_world ∅) = (Ok false, demo_world ∅).
Proof.
  assert (TodoStorage.load demo_storage (demo_world ∅) = (Ok [], demo_world ∅))
    as Hl by reflexivity.
  destruct (clear_completed_always_writes demo_storage _ _ _ Hl) as (_ & _ & _ & Habsent).
  destruct Habsent as (Hcc & Hup & Hdel); [reflexivity|].
  split_and!; [exact Hcc|reflexivity|apply Hup|apply Hdel].
Defined.

End examples.
(** * Further properties of the code *)

Section model_extras.
Context `{Runtime}.

(** X1: [from_dict (to_dict x)] for an arbitrary record.  A bare string
    in the priority field comes back as the member of the enumeration
    with that value, or is a [ValueError] when no member has it; any
    other record comes back as it is.  The world is never touched. *)
Theorem from_dict_to_dict_any (x : Todo.t) (w : World) :
  Todo.from_dict (Todo.to_dict x) w =
    match Todo.priority x with
    | V (JStr s) =>
        match Priority.call s with
        | Ok p =>
            (Ok {| Todo.id := Todo.id x; Todo.title := Todo.title x;
                   Todo.description := Todo.description x;
                   Todo.completed := Todo.completed x;
                   Todo.priority := E p;
                   Todo.category := Todo.category x;
                   Todo.due_date := Todo.due_date x;
                   Todo.created_at := Todo.created_at x;
                   Todo.completed_at := Todo.completed_at x |}, w)
        | Raise _ => (Raise ValueError, w)
        end
    | _ => (Ok x, w)
    end.
Proof.
  destruct x as [i ti de co pr ca du cr ca']; simpl.
  destruct pr as [[| | |s| |]|[]]; try reflexivity.
  unfold Todo.from_dict, bind, lift, ret.
  change (Todo.to_dict _ !! "priority") with (Some (str s)). simpl.
  destruct (Priority.call s) as [p|e] eqn:Hc; [|by rewrite (priority_call_Raise s e Hc)].
  reflexivity.
Qed.

(** X2: an item that is overdue stays overdue as the clock advances
    (nothing else of the world matters), and a completed item is never
    overdue. *)
Theorem is_overdue_monotone (self : Todo.t) (w w' : World) :
  (clock w ≤ clock w')%Z →
  (Todo.is_overdue self w).1 = Ok true →
  (Todo.is_overdue self w').1 = Ok true ∧ truthy (Todo.completed self) = false.
Proof.
  intros Hclk. rewrite !is_overdue_run. simpl.
  destruct (truthy (Todo.completed self)); [done|]. simpl.
  destruct (truthy (Todo.due_date self)); [|done]. simpl.
  destruct (as_str (Todo.due_date self)) as [s|]; [|done].
  destruct (fromisoformat s) as [d|]; [|done].
  unfold datetime_lt, now_of. simpl.
  destruct (utcoffset d); [done|].
  intros [= Hlt]. split; [|done]. do 2 f_equal.
  apply Z.ltb_lt in Hlt. apply Z.ltb_lt. lia.
Qed.

End model_extras.

(** ** Config and ConfigStorage *)

Section config_extras.
Implicit Types (c : Config.t) (data : gmap string pyval) (w : World).

Lemma config_init_known data :
  known_config_keys data →
  Config.init data =
    Ok {| Config.data_file := default (str "~/.todocli/todos.json") (data !! "data_file");
          Config.default_priority := default (E Priority.MEDIUM) (data !! "default_priority");
          Config.show_completed := default (V (JBool true)) (data !! "show_completed");
          Config.sort_by := default (str "created_at") (data !! "sort_by");
          Config.sort_order := default (str "desc") (data !! "sort_order") |}.
Proof. intros Hk. unfold Config.init. by rewrite bool_decide_eq_true_2. Qed.

Lemma config_init_unknown data :
  ¬ known_config_keys data → Config.init data = Raise TypeError.
Proof. intros Hk. unfold Config.init. by rewrite bool_decide_eq_false_2. Qed.

Lemma known_config_keys_priority data v :
  data !! "default_priority" = Some v → ∀ v',
  known_config_keys (<["default_priority" := v']> data) ↔ known_config_keys data.
Proof.
  intros Hv v'. unfold known_config_keys.
  rewrite <-(insert_id data "default_priority" v Hv) at 2.
  rewrite <-!(insert_delete_eq data).
  rewrite !map_Forall_insert by apply lookup_delete_eq. tauto.
Qed.

Lemma priority_of_Raise v e : Config.priority_of v = Raise e → e = ValueError.
Proof.
  unfold Config.priority_of. destruct (as_str v); [|by intros [= <-]].
  apply priority_call_Raise.
Qed.

(** X3: a configuration whose default priority is a member of the
    enumeration is serialised, and [from_dict] of the result is the
    configuration itself. *)
Theorem config_from_dict_to_dict c :
  is_priority (Config.default_priority c) = true →
  ∃ d, Config.to_dict c = Ok d ∧ Config.from_dict d = Ok c.
Proof.
  destruct c as [df pr sc sb so]; simpl. destruct pr as [|p]; [done|]. intros _.
  eexists. split; [reflexivity|]. by destruct p.
Qed.

Lemma priority_of_Ok v p :
  Config.priority_of v = Ok p ↔ as_str v = Some (Priority.value p).
Proof.
  unfold Config.priority_of. destruct (as_str v) as [s|]; [|done]. split.
  - by intros ->%priority_call_Ok.
  - intros [= ->]. apply priority_call_value.
Qed.

Lemma priority_of_not_member v :
  (∀ p, as_str v ≠ Some (Priority.value p)) → Config.priority_of v = Raise ValueError.
Proof.
  intros Hno. destruct (Config.priority_of v) as [p|e] eqn:Hp.
  - apply priority_of_Ok in Hp. by destruct (Hno p).
  - by rewrite (priority_of_Raise v e Hp).
Qed.

(** X4: [Config.from_dict] succeeds exactly when every key is a field
    name and the default priority, if given, is the value of a member;
    the record it returns then holds that member (or [MEDIUM] when none
    was given) as its default priority.  A default priority that is not
    the value of a member, string or not, is a [ValueError], whatever
    the keys are; otherwise a key that is not a field name is a
    [TypeError]. *)
Theorem config_from_dict_priority data :
  ((∃ c, Config.from_dict data = Ok c) ↔
     known_config_keys data ∧
     ∀ v, data !! "default_priority" = Some v →
          ∃ p, as_str v = Some (Priority.value p)) ∧
  (∀ c, Config.from_dict data = Ok c →
        match data !! "default_priority" with
        | Some v => ∃ p, as_str v = Some (Priority.value p) ∧
                         Config.default_priority c = E p
        | None => Config.default_priority c = E Priority.MEDIUM
        end) ∧
  (∀ v, data !! "default_priority" = Some v →
        (∀ p, as_str v ≠ Some (Priority.value p)) →
        Config.from_dict data = Raise ValueError) ∧
  ((∀ v, data !! "default_priority" = Some v →
         ∃ p, as_str v = Some (Priority.value p)) →
   ¬ known_config_keys data →
   Config.from_dict data = Raise TypeError).
Proof.
  unfold Config.from_dict.
  destruct (data !! "default_priority") as [v|] eqn:Hv.
  - destruct (Config.priority_of v) as [p|e] eqn:Hp.
    + pose proof (proj1 (priority_of_Ok v p) Hp) as Hval.
      destruct (decide (known_config_keys data)) as [Hk|Hk].
      * rewrite config_init_known by by apply (known_config_keys_priority data v).
        rewrite lookup_insert_eq. split_and!.
        -- split; [|by eexists]. intros _. split; [done|].
           intros v' [= <-]. by exists p.
        -- intros c [= <-]. by exists p.
        -- intros v' [= <-] Hno. by destruct (Hno p).
        -- done.
      * rewrite config_init_unknown by by rewrite (known_config_keys_priority data v).
        split_and!; [|done| |done].
        -- split; [by intros [? ?]|]. by intros [? _].
        -- intros v' [= <-] Hno. by destruct (Hno p).
    + pose proof (priority_of_Raise v e Hp) as ->.
      assert (∀ p, as_str v ≠ Some (Priority.value p)) as Hno.
      { intros p Hval. apply priority_of_Ok in Hval. congruence. }
      split_and!; [|done|done|].
      * split; [by intros [? ?]|]. intros [_ Hall].
        destruct (Hall v eq_refl) as [p Hp']. by destruct (Hno p).
      * intros Hall. destruct (Hall v eq_refl) as [p Hp']. by destruct (Hno p).
  - destruct (decide (known_config_keys data)) as [Hk|Hk].
    + rewrite config_init_known by done. rewrite Hv. split_and!.
      * split; [|by eexists]. intros _. split; [done|]. by intros v [=].
      * by intros c [= <-].
      * by intros v [=].
      * done.
    + rewrite config_init_unknown by done.
      split_and!; [|done|by intros v [=]|done].
      split; [by intros [? ?]|]. by intros [? _].
Qed.

Local Abbreviation cpath self := (ConfigStorage.config_file self).

(** X5: [ConfigStorage.load] has no effect on the world, whatever the
    file holds and whether it returns or raises: a configuration file it
    cannot read is left in place, no backup is made. *)
Theorem config_load_no_effect (self : ConfigStorage.t) w :
  (ConfigStorage.load self w).2 = w.
Proof.
  unfold ConfigStorage.load, bind, pathlib.exists_, try_except, json_load, lift, ret.
  destruct (bool_decide _); simpl; [|done].
  destruct (files w !! cpath self) as [[raw|doc]|]; simpl; try done.
  destruct (Config.from_dict_value doc) as [c|e]; simpl; [done|].
  by destruct e.
Qed.

Lemma config_load_not_json (self : ConfigStorage.t) w raw :
  files w !! cpath self = Some (FText raw) →
  ConfigStorage.load self w = (Ok Config.defaults, w).
Proof.
  intros Hf.
  unfold ConfigStorage.load, bind, pathlib.exists_, try_except, json_load, lift, ret.
  rewrite Hf, bool_decide_eq_true_2 by done. simpl. by rewrite Hf.
Qed.

(** X6: [ConfigStorage.load] returns the default configuration when the
    file is absent, when its text is not JSON, and when it is an object
    whose default priority is not the value of a member. *)
Theorem config_load_defaults (self : ConfigStorage.t) w :
  files w !! cpath self = None ∨
  (∃ raw, files w !! cpath self = Some (FText raw)) ∨
  (∃ members v, files w !! cpath self = Some (FJson (JObj members)) ∧
                assoc "default_priority" members = Some v ∧
                ∀ p, Config.priority_of (V v) ≠ Ok p) →
  ConfigStorage.load self w = (Ok Config.defaults, w).
Proof.
  unfold ConfigStorage.load, bind, pathlib.exists_, try_except, json_load, lift, ret.
  intros [Hf|[[raw Hf]|(members & v & Hf & Hv & Hno)]]; rewrite Hf.
  - by rewrite bool_decide_eq_false_2 by by intros [? ?].
  - rewrite bool_decide_eq_true_2 by done. simpl. by rewrite Hf.
  - rewrite bool_decide_eq_true_2 by done. simpl. rewrite Hf. simpl.
    unfold Config.from_dict, dict_of_members. rewrite lookup_fmap.
    rewrite <-assoc_list_to_map, Hv. simpl.
    destruct (Config.priority_of (V v)) as [p|e] eqn:Hp; [by destruct (Hno p)|].
    by rewrite (priority_of_Raise _ e Hp).
Qed.

(** X7: a configuration whose default priority is a member and whose
    other fields are JSON data is read back by [load] as it was saved. *)
Theorem config_save_load (self : ConfigStorage.t) c w :
  is_priority (Config.default_priority c) = true →
  is_json (Config.data_file c) && is_json (Config.show_completed c)
  && is_json (Config.sort_by c) && is_json (Config.sort_order c) = true →
  ∃ w', ConfigStorage.save self c w = (Ok tt, w') ∧
        ConfigStorage.load self w' = (Ok c, w').
Proof.
  destruct c as [df pr sc sb so]; simpl. intros Hp Hj.
  repeat (apply andb_prop in Hj as [Hj ?]).
  destruct pr as [|p]; [done|]. destruct df, sc, sb, so; try done.
  eexists. split; [reflexivity|].
  unfold ConfigStorage.load, bind, pathlib.exists_, try_except, json_load, lift, ret.
  simpl. rewrite lookup_insert_eq.
  rewrite bool_decide_eq_true_2 by done. simpl. rewrite lookup_insert_eq.
  by destruct p.
Qed.

(** X8: [save] opens the file for writing before it serialises the
    configuration.  When the default priority is not a member of the
    enumeration, [save] raises [AttributeError] and leaves the
    configuration file empty; the next [load] returns the defaults. *)
Theorem config_save_not_member (self : ConfigStorage.t) c w :
  is_priority (Config.default_priority c) = false →
  let w' := set_files (fun fs => <[cpath self := FText ""]> fs) w in
  ConfigStorage.save self c w = (Raise AttributeError, w') ∧
  ConfigStorage.load self w' = (Ok Config.defaults, w').
Proof.
  intros Hp w'. split.
  - unfold ConfigStorage.save, bind, open_w, lift, Config.to_dict.
    by destruct (Config.default_priority c).
  - apply (config_load_not_json self w' ""). apply lookup_insert_eq.
Qed.

(** X9: a configuration object with a key that is not a field (and with
    a usable default priority, if any) makes [load] raise [TypeError]:
    the except clause does not list it. *)
Theorem config_load_unknown_key (self : ConfigStorage.t) w members :
  files w !! cpath self = Some (FJson (JObj members)) →
  ¬ known_config_keys (dict_of_members members) →
  (∀ v, assoc "default_priority" members = Some v → ∃ p, Config.priority_of (V v) = Ok p) →
  ConfigStorage.load self w = (Raise TypeError, w).
Proof.
  intros Hf Hk Hp.
  unfold ConfigStorage.load, bind, pathlib.exists_, try_except, json_load, lift, ret.
  rewrite Hf, bool_decide_eq_true_2 by done. simpl. rewrite Hf. simpl.
  unfold Config.from_dict.
  destruct (dict_of_members members !! "default_priority") as [v|] eqn:Hv.
  - assert (∃ j, v = V j ∧ assoc "default_priority" members = Some j) as (j & -> & Hj).
    { revert Hv. unfold dict_of_members. rewrite lookup_fmap, <-assoc_list_to_map.
      destruct (assoc _ members) as [j|]; [|done]. intros [= <-]. by exists j. }
    destruct (Hp j Hj) as [p ->].
    by rewrite config_init_unknown by by rewrite (known_config_keys_priority _ (V j)).
  - by rewrite config_init_unknown.
Qed.

End config_extras.

(** ** TodoStorage: how the operations compose *)

Section storage_extras.
Context `{Runtime}.
Implicit Types (self : TodoStorage.t) (w : World) (todos : list Todo.t).

Local Abbreviation path self := (TodoStorage.data_file self).

Lemma valid_from_json (x : Todo.t) : valid x = true → from_json x = true.
Proof.
  destruct x as [i ti de co pr ca du cr ca']. unfold valid, from_json. simpl.
  intros Hv. repeat (apply andb_prop in Hv as [Hv ?]).
  by destruct i, ti, de, co, pr, ca, du, cr, ca'.
Qed.


Lemma py_eq_refl_str (a : pyval) : is_str a = true → py_eq a a = true.
Proof. destruct a as [[]|]; try done. intros _. apply String.eqb_refl. Qed.

Lemma lookup_id_app todos t ident :
  no_match ident todos → py_eq (Todo.id t) ident = true →
  TodoStorage.lookup_id ident (todos ++ [t]) = Some t.
Proof.
  induction todos as [|x todos IH]; intros Hno Ht; simpl.
  - by rewrite Ht.
  - rewrite (Hno x) by set_solver. apply IH; [|done].
    intros t' Ht'. apply Hno. set_solver.
Qed.

Lemma written_written (p : Path) todos todos' w :
  written p todos (written p todos' w) = written p todos w.
Proof. unfold written, set_files. simpl. by rewrite insert_insert_eq. Qed.

(** X10: what [save] writes, [load] returns: for records that are valid
    (or, more generally, of the shape [load] itself produces), [load]
    after [save] returns the saved collection and changes nothing. *)
Theorem save_then_load self todos w :
  Forall (fun t => valid t = true ∨ from_json t = true) todos →
  ∃ w', TodoStorage.save self todos w = (Ok tt, w') ∧
        TodoStorage.load self w' = (Ok todos, w').
Proof.
  intros Hall. eexists. split; [apply save_run|].
  apply load_written. eapply Forall_impl; [exact Hall|].
  intros t [?|?]; [by apply valid_from_json|done].
Qed.

(** X11: after [add t], where [t] is valid and no stored item has its
    id, [get] with that id returns [t]. *)
Theorem add_then_get self t w todos w1 :
  TodoStorage.load self w = (Ok todos, w1) →
  valid t = true →
  no_match (Todo.id t) todos →
  ∃ w', TodoStorage.add self t w = (Ok tt, w') ∧
        TodoStorage.get self (Todo.id t) w' = (Ok (Some t), w').
Proof.
  intros Hl Hv Hno. eexists. split; [by apply add_run|].
  assert (TodoStorage.load self (written (path self) (todos ++ [t]) w1)
          = (Ok (todos ++ [t]), written (path self) (todos ++ [t]) w1)) as Hl'.
  { apply load_written. apply Forall_app. split; [by eapply load_from_json|].
    constructor; [by apply valid_from_json|done]. }
  rewrite (get_run _ _ _ _ _ Hl'). do 2 f_equal.
  apply lookup_id_app; [done|]. apply py_eq_refl_str.
  unfold valid in Hv. repeat (apply andb_prop in Hv as [Hv ?]). done.
Qed.

(** X12: after a successful [update u], where [u] is valid, [load]
    returns the collection with [u] at the index of the first match and
    [get] with the id of [u] returns [u]. *)
Theorem update_then_get self u w todos w1 i :
  TodoStorage.load self w = (Ok todos, w1) →
  valid u = true →
  first_match (Todo.id u) todos i →
  ∃ w', TodoStorage.update self u w = (Ok true, w') ∧
        TodoStorage.load self w' = (Ok (<[i := u]> todos), w') ∧
        TodoStorage.get self (Todo.id u) w' = (Ok (Some u), w').
Proof.
  intros Hl Hv Hi. eexists. split; [by apply update_run_match|].
  assert (TodoStorage.load self (written (path self) (<[i := u]> todos) w1)
          = (Ok (<[i := u]> todos), written (path self) (<[i := u]> todos) w1)) as Hl'.
  { apply load_written. apply Forall_insert; [by eapply load_from_json|].
    by apply valid_from_json. }
  split; [done|]. rewrite (get_run _ _ _ _ _ Hl').
  destruct Hi as [(t & Ht & _) Hlt].
  assert (i < length todos) as Hlen by by eapply lookup_lt_Some.
  rewrite (lookup_id_first_match _ _ i); [by rewrite list_lookup_insert_eq|].
  split.
  - exists u. split; [by apply list_lookup_insert_eq|]. apply py_eq_refl_str.
    unfold valid in Hv. repeat (apply andb_prop in Hv as [Hv ?]). done.
  - intros j t' Hj. rewrite list_lookup_insert_ne by lia. by apply Hlt.
Qed.

(** X13: [clear_completed] is idempotent: run a second time it returns
    0 and leaves the world as the first run left it. *)
Theorem clear_completed_twice self w todos w1 :
  TodoStorage.load self w = (Ok todos, w1) →
  ∃ n w', TodoStorage.clear_completed self w = (Ok n, w') ∧
          TodoStorage.clear_completed self w' = (Ok 0%Z, w').
Proof.
  intros Hl. eexists _, _. split; [by apply clear_completed_run|].
  set (kept := filter (fun t => truthy (Todo.completed t) = false) todos).
  assert (TodoStorage.load self (written (path self) kept w1)
          = (Ok kept, written (path self) kept w1)) as Hl'.
  { apply load_written. apply load_from_json in Hl.
    rewrite Forall_forall in Hl |- *. intros t Ht. apply Hl.
    unfold kept in Ht. by apply list_elem_of_filter in Ht as [_ ?]. }
  rewrite (clear_completed_run _ _ _ _ Hl'). unfold kept at 1.
  rewrite none_completed_kept. f_equal.
  rewrite written_written. f_equal.
  unfold kept. rewrite list_filter_filter. apply list_filter_iff. tauto.
Qed.

Lemma init_keeps kw w r w' :
  Todo.init kw w = (r, w') → files w' = files w ∧ clock w' = clock w.
Proof.
  destruct (decide (known_keys kw)).
  - rewrite init_known by done. destruct (kw !! "id"); by intros [= _ <-].
  - rewrite init_unknown by done. by intros [= _ <-].
Qed.

Lemma from_dict_value_keeps item w r w' :
  Todo.from_dict_value item w = (r, w') → files w' = files w ∧ clock w' = clock w.
Proof.
  destruct item; simpl; unfold raise; try by intros [= _ <-].
  unfold Todo.from_dict, bind, lift, ret.
  destruct (_ !! "priority") as [v|]; [|apply init_keeps].
  destruct (as_str v) as [s|]; [|apply init_keeps].
  destruct (Priority.call s); [apply init_keeps|by intros [= _ <-]].
Qed.

Lemma mapM_keeps items w r w' :
  mapM Todo.from_dict_value items w = (r, w') →
  files w' = files w ∧ clock w' = clock w.
Proof.
  revert w r w'. induction items as [|x items IH]; intros w r w'; simpl.
  - unfold ret. by intros [= _ <-].
  - unfold bind.
    destruct (Todo.from_dict_value x w) as [[y|e] w2] eqn:Hx;
      apply from_dict_value_keeps in Hx as [Hf2 Hc2].
    + destruct (mapM Todo.from_dict_value items w2) as [[ys|e] w3] eqn:Hm;
        apply IH in Hm as [? ?]; intros [= _ <-]; split; congruence.
    + by intros [= _ <-].
Qed.

(** X14: [load] never loses the text of the items file and never moves
    the clock: whatever it returns, either the file system is as it
    was, or the result is the empty collection and the file stands,
    unchanged, at the backup path. *)
Theorem load_keeps_content self w r w1 :
  TodoStorage.load self w = (r, w1) →
  clock w1 = clock w ∧
  (files w1 = files w ∨
   ∃ f backup, files w !! path self = Some f ∧
               pathlib.with_suffix (path self) ".json.bak" = Ok backup ∧
               files w1 = <[backup := f]> (delete (path self) (files w)) ∧
               r = Ok []).
Proof.
  unfold TodoStorage.load. unfold bind at 1. unfold pathlib.exists_ at 1.
  destruct (files w !! path self) as [f|] eqn:Hf.
  2:{ rewrite bool_decide_eq_false_2 by by intros [? ?]. simpl.
      intros [= <- <-]. split; [done|by left]. }
  rewrite bool_decide_eq_true_2 by done. simpl. unfold try_except.
  match goal with |- context [bind ?c ?k w] => destruct (bind c k w) as [r' w'] eqn:Hb end.
  assert (files w' = files w ∧ clock w' = clock w) as [Hfs Hclk].
  { revert Hb. unfold bind at 1. unfold json_load. rewrite Hf.
    destruct f as [raw|doc]; [by intros [= _ <-]|].
    unfold bind at 1. unfold lift at 1.
    destruct (py_iter doc) as [items|]; [|by intros [= _ <-]].
    apply mapM_keeps. }
  destruct r' as [l|e].
  { intros [= <- <-]. split; [done|by left]. }
  destruct (handles _ e).
  2:{ intros [= <- <-]. split; [done|by left]. }
  unfold bind at 1. unfold lift at 1.
  destruct (pathlib.with_suffix (path self) ".json.bak") as [backup|e'].
  2:{ intros [= <- <-]. split; [done|by left]. }
  unfold bind, pathlib.exists_, pathlib.rename, ret. rewrite Hfs, Hf.
  rewrite bool_decide_eq_true_2 by done. simpl. rewrite Hfs, Hf. simpl.
  intros [= <- <-]. simpl. split; [done|]. right. exists f, backup. by rewrite Hfs.
Qed.

End storage_extras.

(** ** Recovery, seen from the next call *)

Section recovery_extras.
Context `{Runtime}.
Implicit Types (self : TodoStorage.t) (w : World) (todos : list Todo.t).

Local Abbreviation path self := (TodoStorage.data_file self).

Lemma length_substring (s : string) (n m : nat) :
  String.length (String.substring n m s) = Nat.min m (String.length s - n).
Proof.
  revert n m. induction s as [|a s IH]; intros [|n] [|m]; simpl; try done;
    rewrite IH; simpl; lia.
Qed.

(** The backup is never the items file itself. *)
Lemma with_suffix_ne (p q : Path) :
  pathlib.with_suffix p ".json.bak" = Ok q → q ≠ p.
Proof.
  unfold pathlib.with_suffix, pathlib.suffix, pathlib.name.
  destruct (last p) as [nm|] eqn:Hlast; simpl; [|done].
  destruct (String.eqb_spec nm "") as [|Hnm]; [done|].
  apply last_Some in Hlast as [dir ->].
  rewrite length_app. simpl length.
  replace (length dir + 1 - 1) with (length dir) by lia.
  rewrite take_app_length. intros [= <-] Heq.
  apply app_inv_head in Heq. injection Heq as Heq. revert Heq.
  destruct (pathlib.rfind "." nm) as [i|] eqn:Hi.
  2:{ simpl. intros Heq. apply (f_equal String.length) in Heq.
      rewrite string_length_app in Heq. simpl in Heq. lia. }
  destruct ((0 <? i) && (i <? String.length nm - 1)) eqn:Hcond.
  2:{ simpl. intros Heq. apply (f_equal String.length) in Heq.
      rewrite string_length_app in Heq. simpl in Heq. lia. }
  apply andb_prop in Hcond as [Hi0%Nat.ltb_lt Hi1%Nat.ltb_lt].
  set (old := String.substring i (String.length nm - i) nm).
  assert (String.length old = String.length nm - i) as Hold.
  { unfold old. rewrite length_substring. lia. }
  destruct (String.eqb_spec old "") as [Hempty|_].
  { rewrite Hempty in Hold. simpl in Hold. lia. }
  rewrite Hold. replace (String.length nm - (String.length nm - i)) with i by lia.
  intros Heq.
  assert (pathlib.rfind "." nm = Some (String.length (String.substring 0 i nm) + 5)) as Hi'.
  { rewrite <-Heq at 1. by apply rfind_app. }
  rewrite length_substring in Hi'. rewrite Hi in Hi'. injection Hi' as Hi'. lia.
Qed.

(** X15: once [load] has met text that is not JSON, the items file is
    gone, its text is at the backup path (which is never the path
    itself), and every further [load] returns the empty collection and
    changes nothing. *)
Theorem load_after_recovery self w raw :
  pathlib.name (path self) ≠ "" →
  files w !! path self = Some (FText raw) →
  ∃ backup w1,
    TodoStorage.load self w = (Ok [], w1) ∧
    backup ≠ path self ∧
    files w1 !! path self = None ∧
    files w1 !! backup = Some (FText raw) ∧
    TodoStorage.load self w1 = (Ok [], w1).
Proof.
  intros Hname Hf.
  destruct (pathlib.with_suffix (path self) ".json.bak") as [backup|e] eqn:Hb.
  2:{ revert Hb. unfold pathlib.with_suffix.
      by destruct (String.eqb_spec (pathlib.name (path self)) ""). }
  pose proof (with_suffix_ne _ _ Hb) as Hne.
  exists backup. eexists. split; [by apply load_malformed_text|].
  assert (∀ fs : gmap Path File, <[backup := FText raw]> (delete (path self) fs) !! path self = None) as Hgone.
  { intros fs. rewrite lookup_insert_ne by done. apply lookup_delete_eq. }
  split_and!; [done|apply Hgone|apply lookup_insert_eq|].
  apply load_absent. apply Hgone.
Qed.

Lemma delete_unique self ident w todos w1 i :
  TodoStorage.load self w = (Ok todos, w1) →
  first_match ident todos i →
  (∀ j t, j ≠ i → todos !! j = Some t → py_eq (Todo.id t) ident = false) →
  ∃ w', TodoStorage.delete self ident w = (Ok true, w') ∧
        TodoStorage.load self w' = (Ok (delete i todos), w') ∧
        TodoStorage.get self ident w' = (Ok None, w') ∧
        TodoStorage.delete self ident w' = (Ok false, w').
Proof.
  intros Hl Hi Huniq. eexists. split; [by apply delete_run_match|].
  assert (TodoStorage.load self (written (path self) (delete i todos) w1)
          = (Ok (delete i todos), written (path self) (delete i todos) w1)) as Hl'.
  { apply load_written. apply load_from_json in Hl.
    rewrite Forall_forall in Hl |- *. intros t Ht. apply Hl.
    apply list_elem_of_lookup in Ht as [j Hj].
    apply list_elem_of_lookup.
    destruct (decide (j < i)).
    - exists j. by rewrite list_lookup_delete_lt in Hj.
    - exists (S j). by rewrite list_lookup_delete_ge in Hj by lia. }
  assert (no_match ident (delete i todos)) as Hno.
  { intros t Ht. apply list_elem_of_lookup in Ht as [j Hj].
    destruct (decide (j < i)).
    - rewrite list_lookup_delete_lt in Hj by done. apply (Huniq j); [lia|done].
    - rewrite list_lookup_delete_ge in Hj by lia. apply (Huniq (S j)); [lia|done]. }
  split_and!; [done| |by apply (delete_run_none _ _ _ _ _ Hl')].
  rewrite (get_run _ _ _ _ _ Hl'). by rewrite lookup_id_no_match.
Qed.

(** X16: after a successful [delete] of an id that exactly one stored
    item has, no stored item has that id: [get] returns [None] and a
    second [delete] returns [False] and writes nothing. *)
Theorem delete_then_get self ident w todos w1 i :
  TodoStorage.load self w = (Ok todos, w1) →
  first_match ident todos i →
  (∀ j t, j ≠ i → todos !! j = Some t → py_eq (Todo.id t) ident = false) →
  ∃ w', TodoStorage.delete self ident w = (Ok true, w') ∧
        TodoStorage.load self w' = (Ok (delete i todos), w') ∧
        TodoStorage.get self ident w' = (Ok None, w') ∧
        TodoStorage.delete self ident w' = (Ok false, w').
Proof. apply delete_unique. Qed.

End recovery_extras.

(** ** cli.py: the commands that resolve an id prefix *)

Section cli_extras.
Context `{Runtime} `{Console}.
Implicit Types (storage : TodoStorage.t) (w : World) (todos : list Todo.t).

Local Abbreviation path self := (TodoStorage.data_file self).

Lemma matching_cons pre x todos l :
  cli.matching pre (x :: todos) = Ok l →
  ∃ s l', as_str (Todo.id x) = Some s ∧ cli.matching pre todos = Ok l' ∧
          l = if String.prefix pre s then x :: l' else l'.
Proof.
  simpl. unfold cli.startswith. destruct (as_str (Todo.id x)) as [s|]; [|done].
  destruct (cli.matching pre todos) as [l'|]; [|done].
  intros [= <-]. by exists s, l'.
Qed.

Lemma matching_elem pre todos l t :
  cli.matching pre todos = Ok l → t ∈ l →
  ∃ s, as_str (Todo.id t) = Some s ∧ String.prefix pre s = true.
Proof.
  revert l. induction todos as [|x todos IH]; intros l.
  - intros [= <-]. by intros ?%elem_of_nil.
  - intros (s & l' & Hs & Hl' & ->)%matching_cons.
    destruct (String.prefix pre s) eqn:Hp; [|by apply IH].
    intros [->|Ht]%elem_of_cons; [by exists s|by eapply IH].
Qed.

Lemma matching_nil pre todos t :
  cli.matching pre todos = Ok [] → t ∈ todos →
  ∃ s, as_str (Todo.id t) = Some s ∧ String.prefix pre s = false.
Proof.
  induction todos as [|x todos IH]; [by intros _ ?%elem_of_nil|].
  intros (s & l' & Hs & Hl' & Hl)%matching_cons.
  destruct (String.prefix pre s) eqn:Hp; [done|]. subst l'.
  intros [->|Ht]%elem_of_cons; [by exists s|by apply IH].
Qed.

Lemma matching_single pre todos t :
  cli.matching pre todos = Ok [t] → ∃ i, only_match pre todos i t.
Proof.
  induction todos as [|x todos IH]; [done|].
  intros (s & l' & Hs & Hl' & Hl)%matching_cons.
  destruct (String.prefix pre s) eqn:Hp.
  - injection Hl as <- <-. exists 0. split_and!; [done|by exists s|].
    intros [|j] t' Hj; [done|]. simpl. intros Ht'.
    eapply matching_nil; [done|]. by eapply list_elem_of_lookup_2.
  - subst l'. destruct (IH Hl') as (i & Hi & Ht & Hothers).
    exists (S i). split_and!; [done..|].
    intros [|j] t' Hj; simpl.
    + intros [= <-]. by exists s.
    + apply Hothers. lia.
Qed.

Lemma only_match_matching pre todos i t :
  only_match pre todos i t → cli.matching pre todos = Ok [t].
Proof.
  revert i. induction todos as [|x todos IH]; intros i (Hi & (s & Hs & Hp) & Hothers).
  - by rewrite lookup_nil in Hi.
  - simpl. unfold cli.startswith. destruct i as [|i].
    + simpl in Hi. injection Hi as ->. rewrite Hs, Hp.
      assert (cli.matching pre todos = Ok []) as ->; [|done].
      clear IH. induction todos as [|y todos IH]; [done|].
      simpl. unfold cli.startswith.
      destruct (Hothers 1 y) as (s' & -> & ->); [done..|].
      rewrite IH; [done|]. intros [|j] t' Hj Ht'; [done|].
      apply (Hothers (S (S j)) t'); [done|]. done.
    + destruct (Hothers 0 x) as (s' & -> & ->); [done..|].
      rewrite (IH i); [done|]. split_and!; [done|by exists s|].
      intros j t' Hj Ht'. apply (Hothers (S j) t'); [lia|done].
Qed.





(** X17: the list comprehension that resolves an id prefix returns
    exactly one item only when exactly one index holds an id with that
    prefix; it raises [AttributeError] as soon as an id is not a string,
    and the empty prefix selects every item. *)
Theorem matching_resolves pre todos :
  (∀ t, cli.matching pre todos = Ok [t] ↔ ∃ i, only_match pre todos i t) ∧
  (Forall (fun t => is_Some (as_str (Todo.id t))) todos ∨
   ∃ e, cli.matching pre todos = Raise e ∧ e = AttributeError) ∧
  (Forall (fun t => is_Some (as_str (Todo.id t))) todos →
   cli.matching "" todos = Ok todos).
Proof.
  split_and!.
  - intros t. split; [apply matching_single|].
    intros [i Hi]. by eapply only_match_matching.
  - induction todos as [|x todos IH]; [left; constructor|].
    simpl. unfold cli.startswith.
    destruct (as_str (Todo.id x)) as [s|] eqn:Hs; [|right; by eexists].
    destruct IH as [IH|(e & -> & ->)]; [|right; by eexists].
    left. by constructor.
  - induction 1 as [|x todos [s Hs] _ IH]; [done|].
    simpl. unfold cli.startswith. rewrite Hs, IH. by destruct s.
Qed.

Lemma console_print_run markup w :
  cli.console_print markup w
  = (if print_ok markup then Ok markup else Raise MarkupError, w).
Proof. unfold cli.console_print. by destruct (print_ok markup). Qed.



(** X19: when the prefix selects no stored item or more than one,
    [complete], [uncomplete] and [delete] leave the world as [load] left
    it: nothing is written.  Each ends printing the same line, [Todo not
    found:] followed by the prefix as it was typed, or [Multiple matches
    found]; when rich cannot render that line (the prefix is part of the
    markup) each raises [MarkupError] instead. *)
Theorem unresolved_prefix_writes_nothing storage todo_id w todos w1 found :
  TodoStorage.load storage w = (Ok todos, w1) →
  cli.matching todo_id todos = Ok found →
  length found ≠ 1 →
  let line :=
    if found is [] then "[red]Todo not found: " +:+ todo_id +:+ "[/red]"
    else "[yellow]Multiple matches found. Be more specific.[/yellow]" in
  let outcome := if print_ok line then Ok line else Raise MarkupError in
  cli.complete storage todo_id w = (outcome, w1) ∧
  cli.uncomplete storage todo_id w = (outcome, w1) ∧
  cli.delete storage todo_id w = (outcome, w1).
Proof.
  intros Hl Hm Hlen line outcome.
  unfold cli.complete, cli.uncomplete, cli.delete.
  rewrite !(bind_run _ _ _ _ _ Hl). unfold bind, lift. rewrite Hm.
  destruct found as [|a [|b found]]; [|done|]; simpl;
    split_and!; apply console_print_run.
Qed.



Lemma cli_add_due_rejected storage title description priority category due w :
  due ≠ "" → fromisoformat due = None →
  cli.add storage title description priority category (Some due) w
  = cli.console_print "[red]Invalid date format. Use YYYY-MM-DD[/red]" w.
Proof.
  intros Hne Hd. unfold cli.add. rewrite Hd.
  by destruct (String.eqb_spec due "").
Qed.

(** X22: the [add] command.  A non-empty due date that [fromisoformat]
    rejects ends the command at the line [Invalid date format]: no file
    is read or written, no identifier drawn.  Otherwise (no due date, an
    empty one, which is not checked, or one that parses), with a
    priority among low, medium and high, the command appends one record
    to the stored collection: a fresh uuid as id, the given title,
    description, category and due date, the priority as a member of the
    enumeration, not completed, created at the current time.  Its last
    statement prints the line [Added:] followed by the title as it was
    typed; when rich cannot render that line the command raises
    [MarkupError], with the record stored all the same. *)
Theorem cli_add_appends storage title description priority category due p w todos w1 :
  (∀ s, due = Some s → s ≠ "" → fromisoformat s = None →
        let line := "[red]Invalid date format. Use YYYY-MM-DD[/red]" in
        cli.add storage title description priority category due w
        = (if print_ok line then Ok line else Raise MarkupError, w)) ∧
  ((∀ s, due = Some s → s = "" ∨ is_Some (fromisoformat s)) →
   Priority.call priority = Ok p →
   TodoStorage.load storage (drawn w) = (Ok todos, w1) →
   let todo :=
     {| Todo.id := str (uuid4_str (rng w)); Todo.title := str title;
        Todo.description := str description; Todo.completed := V (JBool false);
        Todo.priority := E p; Todo.category := str category;
        Todo.due_date := match due with Some s => str s | None => None_ end;
        Todo.created_at := str (isoformat (now_of w)); Todo.completed_at := None_ |} in
   let w' := written (path storage) (todos ++ [todo]) w1 in
   let line := "[green]✓[/green] Added: " +:+ title in
   cli.add storage title description priority category due w
   = (if print_ok line then Ok line else Raise MarkupError, w') ∧
   TodoStorage.load storage w' = (Ok (todos ++ [todo]), w')).
Proof.
  split.
  { intros s -> Hne Hd line. rewrite cli_add_due_rejected by done.
    apply console_print_run. }
  intros Hdue Hp Hl todo w' line. split.
  - unfold cli.add.
    assert (match due with
            | Some s => if negb (String.eqb s "")
                        then match fromisoformat s with Some _ => true | None => false end
                        else true
            | None => true end = true) as ->.
    { destruct due as [s|]; [|done].
      destruct (Hdue s eq_refl) as [->|[d ->]]; [done|by destruct (String.eqb s "")]. }
    simpl. unfold bind at 1. unfold lift at 1. rewrite Hp.
    unfold bind at 1. rewrite init_known.
    2:{ unfold known_keys. refine (bool_decide_eq_true_1 _ _). reflexivity. }
    simpl. rewrite (bind_run _ _ _ _ _ (add_run storage _ (drawn w) todos w1 Hl)).
    apply console_print_run.
  - apply load_written. apply Forall_app. split; [by eapply load_from_json|].
    constructor; [|done]. unfold from_json, todo. simpl. by destruct due.
Qed.

End cli_extras.

(** ** The boilerplate's demo command *)

Section demo_extras.

Lemma iteration_line_differs (r : string) :
  "Iteration " +:+ r ≠ "Demo command executed!".
Proof. discriminate. Qed.

(** X23: [demo] writes the fixed line once per iteration, that is
    [count] times and never for a count of zero or less; without
    [--verbose] it writes nothing else, with it each fixed line follows
    the line [Iteration k/count], [k] counting from 1. *)
Theorem demo_output (count : Z) :
  boilerplate.demo count false = replicate (Z.to_nat count) "Demo command executed!" ∧
  length (filter (fun l => l = "Demo command executed!") (boilerplate.demo count true))
  = Z.to_nat count ∧
  length (boilerplate.demo count true) = 2 * Z.to_nat count ∧
  ∀ i, i < Z.to_nat count →
       boilerplate.demo count true !! (2 * i)
       = Some ("Iteration " +:+ pretty (Z.of_nat i + 1)%Z +:+ "/" +:+ pretty count) ∧
       boilerplate.demo count true !! (2 * i + 1) = Some "Demo command executed!".
Proof.
  unfold boilerplate.demo. generalize (Z.to_nat count) as n. intros n.
  assert (∀ a,
    (seq a n ≫= fun i => [] ++ ["Demo command executed!"])
    = replicate n "Demo command executed!") as Hplain.
  { induction n as [|n IH]; intros a; [done|]. simpl. by rewrite IH. }
  pose (line := fun i : nat =>
    "Iteration " +:+ pretty (Z.of_nat i + 1)%Z +:+ "/" +:+ pretty count).
  assert (∀ a,
    length (filter (fun l => l = "Demo command executed!")
              (seq a n ≫= fun i => [line i] ++ ["Demo command executed!"])) = n ∧
    length (seq a n ≫= fun i => [line i] ++ ["Demo command executed!"]) = 2 * n ∧
    ∀ i, i < n →
      (seq a n ≫= fun i => [line i] ++ ["Demo command executed!"]) !! (2 * i)
      = Some (line (a + i)) ∧
      (seq a n ≫= fun i => [line i] ++ ["Demo command executed!"]) !! (2 * i + 1)
      = Some "Demo command executed!") as Hverbose.
  { clear Hplain. induction n as [|n IH]; intros a.
    - split_and!; [done|done|]. intros i Hi. lia.
    - destruct (IH (S a)) as (Hcount & Hlen & Hlook).
      change (seq a (S n) ≫= fun i => [line i] ++ ["Demo command executed!"])
        with (line a :: "Demo command executed!"
              :: (seq (S a) n ≫= fun i => [line i] ++ ["Demo command executed!"])).
      split_and!.
      + rewrite filter_cons_False by apply iteration_line_differs.
        rewrite filter_cons_True by done. cbn [length]. by rewrite Hcount.
      + cbn [length]. rewrite Hlen. lia.
      + intros [|i] Hi.
        * split; [|done]. simpl. by rewrite Nat.add_0_r.
        * destruct (Hlook i) as [H1 H2]; [lia|].
          replace (2 * S i) with (S (S (2 * i))) by lia.
          replace (S (S (2 * i)) + 1) with (S (S (2 * i + 1))) by lia.
          simpl lookup. split; [|exact H2].
          replace (a + S i) with (S a + i) by lia. exact H1. }
  split; [apply Hplain|]. destruct (Hverbose 0) as (? & ? & Hl).
  split_and!; [done|done|]. intros i Hi. by destruct (Hl i Hi).
Qed.

End demo_extras.

(** ** The further properties at concrete inputs *)

Section extras_examples.
#[local] Existing Instance demo_runtime.
#[local] Existing Instance demo_console.

Lemma is_overdue_monotone_witness :
  let t := {| Todo.id := str "7"; Todo.title := str "Buy milk";
              Todo.description := str ""; Todo.completed := V (JBool false);
              Todo.priority := E Priority.HIGH; Todo.category := str "";
              Todo.due_date := str "2000-01-01";
              Todo.created_at := str "1999-12-01T00:00:00";
              Todo.completed_at := None_ |} in
  (Todo.is_overdue t {| files := ∅; clock := 1800000000; rng := 5 |}).1 = Ok true.
Proof.
  intros t.
  apply (is_overdue_monotone t (demo_world ∅) {| files := ∅; clock := 1800000000; rng := 5 |}).
  - simpl. lia.
  - reflexivity.
Defined.

Lemma config_from_dict_to_dict_witness :
  ∃ d, Config.to_dict demo_config = Ok d ∧ Config.from_dict d = Ok demo_config.
Proof. apply (config_from_dict_to_dict demo_config). reflexivity. Defined.

Lemma config_load_defaults_witness :
  let doc := JObj [("sort_by", JStr "title"); ("default_priority", JStr "urgent")] in
  let w := demo_world {[ ConfigStorage.config_file demo_config_storage := FJson doc ]} in
  ConfigStorage.load demo_config_storage w = (Ok Config.defaults, w).
Proof.
  intros doc w. apply (config_load_defaults demo_config_storage w).
  right. right.
  exists [("sort_by", JStr "title"); ("default_priority", JStr "urgent")], (JStr "urgent").
  split_and!; [reflexivity|reflexivity|]. intros p Hp. discriminate Hp.
Defined.

Lemma config_save_load_witness :
  ∃ w', ConfigStorage.save demo_config_storage demo_config (demo_world ∅) = (Ok tt, w') ∧
        ConfigStorage.load demo_config_storage w' = (Ok demo_config, w').
Proof.
  apply (config_save_load demo_config_storage demo_config (demo_world ∅)); reflexivity.
Defined.

Lemma config_save_not_member_witness :
  let c := {| Config.data_file := str "/tmp/todos.json";
              Config.default_priority := str "high";
              Config.show_completed := V (JBool false);
              Config.sort_by := str "priority";
              Config.sort_order := str "asc" |} in
  let w' := demo_world {[ ConfigStorage.config_file demo_config_storage := FText "" ]} in
  ConfigStorage.save demo_config_storage c (demo_world ∅) = (Raise AttributeError, w') ∧
  ConfigStorage.load demo_config_storage w' = (Ok Config.defaults, w').
Proof.
  intros c w'.
  apply (config_save_not_member demo_config_storage c (demo_world ∅)). reflexivity.
Defined.

Lemma config_load_unknown_key_witness :
  let doc := JObj [("sort_by", JStr "title"); ("theme", JStr "dark")] in
  let w := demo_world {[ ConfigStorage.config_file demo_config_storage := FJson doc ]} in
  ConfigStorage.load demo_config_storage w = (Raise TypeError, w).
Proof.
  intros doc w.
  apply (config_load_unknown_key demo_config_storage w
           [("sort_by", JStr "title"); ("theme", JStr "dark")]).
  - reflexivity.
  - intros Hk. specialize (Hk "theme" (V (JStr "dark")) eq_refl). simpl in Hk.
    unfold Config.field_names in Hk.
    repeat (apply elem_of_cons in Hk as [Hk|Hk]; [discriminate Hk|]).
    by apply elem_of_nil in Hk.
  - intros v Hv. discriminate Hv.
Defined.

Lemma save_then_load_witness :
  ∃ w', TodoStorage.save demo_storage [milk; bread] (demo_world ∅) = (Ok tt, w') ∧
        TodoStorage.load demo_storage w' = (Ok [milk; bread], w').
Proof.
  apply (save_then_load demo_storage [milk; bread] (demo_world ∅)).
  repeat constructor; left; reflexivity.
Defined.

Lemma no_match_tea : no_match (Todo.id tea) [milk; bread].
Proof.
  intros t Ht.
  repeat (apply elem_of_cons in Ht as [->|Ht]; [reflexivity|]).
  apply elem_of_nil in Ht. destruct Ht.
Defined.

Lemma add_then_get_witness :
  ∃ w', TodoStorage.add demo_storage tea (stored [milk; bread]) = (Ok tt, w') ∧
        TodoStorage.get demo_storage (Todo.id tea) w' = (Ok (Some tea), w').
Proof.
  apply (add_then_get demo_storage tea (stored [milk; bread]) [milk; bread]
           (stored [milk; bread])); [reflexivity|reflexivity|apply no_match_tea].
Defined.

Lemma first_match_bread : first_match (str "8") [milk; bread] 1.
Proof.
  split; [exists bread; split; reflexivity|].
  intros j t Hj Ht. destruct j as [|j]; [|lia].
  simpl in Ht. injection Ht as <-. reflexivity.
Defined.

Lemma update_then_get_witness :
  let u := demo_todo "8" "Buy rye bread" false in
  ∃ w', TodoStorage.update demo_storage u (stored [milk; bread]) = (Ok true, w') ∧
        TodoStorage.load demo_storage w' = (Ok [milk; u], w') ∧
        TodoStorage.get demo_storage (str "8") w' = (Ok (Some u), w').
Proof.
  intros u.
  apply (update_then_get demo_storage u (stored [milk; bread]) [milk; bread]
           (stored [milk; bread]) 1); [reflexivity|reflexivity|apply first_match_bread].
Defined.

Lemma clear_completed_twice_witness :
  ∃ n w', TodoStorage.clear_completed demo_storage (stored [milk; bread]) = (Ok n, w') ∧
          TodoStorage.clear_completed demo_storage w' = (Ok 0%Z, w').
Proof.
  apply (clear_completed_twice demo_storage (stored [milk; bread]) [milk; bread]
           (stored [milk; bread])). reflexivity.
Defined.

Lemma load_keeps_content_witness :
  let p := TodoStorage.data_file demo_storage in
  let w := demo_world {[ p := FText "{not json" ]} in
  ∃ w1, TodoStorage.load demo_storage w = (Ok [], w1) ∧
        clock w1 = clock w ∧
        (files w1 = files w ∨
         ∃ f backup, files w !! p = Some f ∧
                     pathlib.with_suffix p ".json.bak" = Ok backup ∧
                     files w1 = <[backup := f]> (delete p (files w)) ∧
                     Ok (A := list Todo.t) [] = Ok []).
Proof.
  intros p w. eexists. split; [reflexivity|].
  apply (load_keeps_content demo_storage w). reflexivity.
Defined.

Lemma load_after_recovery_witness :
  let p := TodoStorage.data_file demo_storage in
  ∃ backup w1,
    TodoStorage.load demo_storage (demo_world {[ p := FText "{not json" ]}) = (Ok [], w1) ∧
    backup ≠ p ∧
    files w1 !! p = None ∧
    files w1 !! backup = Some (FText "{not json") ∧
    TodoStorage.load demo_storage w1 = (Ok [], w1).
Proof.
  intros p.
  apply (load_after_recovery demo_storage (demo_world {[ p := FText "{not json" ]})).
  - discriminate.
  - reflexivity.
Defined.

Lemma delete_then_get_witness :
  ∃ w', TodoStorage.delete demo_storage (str "8") (stored [milk; bread]) = (Ok true, w') ∧
        TodoStorage.load demo_storage w' = (Ok [milk], w') ∧
        TodoStorage.get demo_storage (str "8") w' = (Ok None, w') ∧
        TodoStorage.delete demo_storage (str "8") w' = (Ok false, w').
Proof.
  apply (delete_then_get demo_storage (str "8") (stored [milk; bread]) [milk; bread]
           (stored [milk; bread]) 1); [reflexivity|apply first_match_bread|].
  intros j t Hj Ht. destruct j as [|[|j]]; [|done|done].
  simpl in Ht. injection Ht as <-. reflexivity.
Defined.


Lemma unresolved_prefix_writes_nothing_witness :
  (cli.complete demo_storage "7" (stored [milk; eggs])
   = (Ok "[yellow]Multiple matches found. Be more specific.[/yellow]", stored [milk; eggs]) ∧
   cli.uncomplete demo_storage "7" (stored [milk; eggs])
   = (Ok "[yellow]Multiple matches found. Be more specific.[/yellow]", stored [milk; eggs]) ∧
   cli.delete demo_storage "7" (stored [milk; eggs])
   = (Ok "[yellow]Multiple matches found. Be more specific.[/yellow]", stored [milk; eggs])) ∧
  (cli.complete demo_storage "[/x]" (stored [milk; eggs])
   = (Raise MarkupError, stored [milk; eggs]) ∧
   cli.uncomplete demo_storage "[/x]" (stored [milk; eggs])
   = (Raise MarkupError, stored [milk; eggs]) ∧
   cli.delete demo_storage "[/x]" (stored [milk; eggs])
   = (Raise MarkupError, stored [milk; eggs])).
Proof.
  split.
  - destruct (unresolved_prefix_writes_nothing demo_storage "7" (stored [milk; eggs])
                [milk; eggs] (stored [milk; eggs]) [milk; eggs])
      as (Hc & Hu & Hd); [reflexivity|reflexivity|simpl; lia|].
    split; [|split]; [rewrite Hc|rewrite Hu|rewrite Hd]; reflexivity.
  - destruct (unresolved_prefix_writes_nothing demo_storage "[/x]" (stored [milk; eggs])
                [milk; eggs] (stored [milk; eggs]) [])
      as (Hc & Hu & Hd); [reflexivity|reflexivity|simpl; lia|].
    split; [|split]; [rewrite Hc|rewrite Hu|rewrite Hd]; reflexivity.
Defined.



Lemma cli_add_appends_witness :
  let todo := {| Todo.id := str "uuid-"; Todo.title := str "[/x] scone";
                 Todo.description := str "plain"; Todo.completed := V (JBool false);
                 Todo.priority := E Priority.LOW; Todo.category := str "shop";
                 Todo.due_date := str "2000-01-01";
                 Todo.created_at := str "2023-11-14T22:13:20";
                 Todo.completed_at := None_ |} in
  let w1 := drawn (stored [milk]) in
  let w' := written (TodoStorage.data_file demo_storage) ([milk] ++ [todo]) w1 in
  cli.add demo_storage "[/x] scone" "plain" "low" "shop" (Some "2000-01-01") (stored [milk])
  = (Raise MarkupError, w') ∧
  TodoStorage.load demo_storage w' = (Ok ([milk] ++ [todo]), w') ∧
  cli.add demo_storage "Buy tea" "green" "low" "shop" (Some "tomorrow") (stored [milk])
  = (Ok "[red]Invalid date format. Use YYYY-MM-DD[/red]", stored [milk]).
Proof.
  intros todo w1 w'.
  destruct (cli_add_appends demo_storage "[/x] scone" "plain" "low" "shop"
              (Some "2000-01-01") Priority.LOW (stored [milk]) [milk] w1) as [_ Hok].
  destruct (cli_add_appends demo_storage "Buy tea" "green" "low" "shop" (Some "tomorrow")
              Priority.LOW (stored [milk]) [milk] w1) as [Hbad _].
  destruct Hok as [Hrun Hload].
  - intros s [= <-]. right. by eexists.
  - reflexivity.
  - reflexivity.
  - split; [|split; [exact Hload|]].
    + rewrite Hrun. reflexivity.
    + rewrite (Hbad "tomorrow"); [reflexivity|reflexivity|discriminate|reflexivity].
Defined.

(** The lines of [demo --count 3], plain and verbose. *)
Example demo_three :
  boilerplate.demo 3 false
  = ["Demo command executed!"; "Demo command executed!"; "Demo command executed!"] ∧
  boilerplate.demo 2 true
  = ["Iteration 1/2"; "Demo command executed!";
     "Iteration 2/2"; "Demo command executed!"] ∧
  boilerplate.demo (-1) true = [].
Proof. split_and!; by vm_compute. Qed.

End extras_examples.
